(** * HestiaSDK: entity bridge and network guards

  A shallow embedding of the entity bridge ([HAIoTBridge]) and of the
  network guards of [HestiaNet] (Wi-Fi guard, MQTT guard, discovery
  publisher), with the properties of the connectivity and
  entity-synchronisation subsystem stated over it.

  Conventions.
  - An Arduino [String] is a [string]; its characters are bytes.
  - [uint8_t] and [unsigned long] values are [Z] with the wrap-around
    written out ([mod 256], [mod 2^32]).
  - The NVS namespace ["Pref"] is a finite map from keys to values.
  - Calls that leave the device (NVS writes, MQTT publishes, radio attach
    calls) are recorded, in program order, in an event log.
  - [Serial] output is not part of the model. *)

From Stdlib Require Import ZArith Ascii String Lia DecimalString.
From stdpp Require Import gmap strings list.

Local Open Scope string_scope.

(** ** Arduino [String] helpers *)

Module WString.

(** [String::isEmpty]. *)
Definition isEmpty (s : string) : bool :=
  match s with
  | EmptyString => true
  | String _ _ => false
  end.

(** [String::indexOf(char)]: position of the first occurrence, [-1] when
    the character is absent. *)
Fixpoint indexOf_from (c : ascii) (s : string) (i : Z) : Z :=
  match s with
  | EmptyString => -1
  | String d r => if Ascii.eqb d c then i else indexOf_from c r (i + 1)
  end.

Definition indexOf (c : ascii) (s : string) : Z := indexOf_from c s 0.

(** [String::substring(from)]: the characters from index [from] on. *)
Fixpoint substring_from (from : nat) (s : string) : string :=
  match from, s with
  | O, _ => s
  | S n, EmptyString => EmptyString
  | S n, String _ r => substring_from n r
  end.

(** [String(int)]: decimal rendering, with a leading minus sign for
    negative numbers. *)
Definition ofInt (z : Z) : string := NilZero.string_of_int (Z.to_int z).

(** The code of a character, as an unsigned byte. *)
Definition code (c : ascii) : Z := Z.of_N (N_of_ascii c).

(** The number of characters after the first decimal point, if any. *)
Definition fractionDigits (s : string) : option nat :=
  let p := indexOf "." s in
  if (p <? 0)%Z then None else Some (String.length s - Z.to_nat p - 1).

(** C's [tolower] on a byte: the upper-case Latin letters are mapped to
    lower case, every other byte is kept. *)
Definition tolower (c : ascii) : ascii :=
  if ((65 <=? code c) && (code c <=? 90))%Z
  then ascii_of_N (Z.to_N (code c + 32))
  else c.

(** [String::toLowerCase]. *)
Fixpoint toLowerCase (s : string) : string :=
  match s with
  | EmptyString => EmptyString
  | String c r => String (tolower c) (toLowerCase r)
  end.

(** [String::equalsIgnoreCase]: same length, and the same characters once
    lowered. *)
Fixpoint equalsIgnoreCase (s t : string) : bool :=
  match s, t with
  | EmptyString, EmptyString => true
  | String a r, String b u =>
      Ascii.eqb (tolower a) (tolower b) && equalsIgnoreCase r u
  | _, _ => false
  end.

(** C's [isspace]: space, and the control characters 9 to 13. *)
Definition isspace (c : ascii) : bool :=
  ((code c =? 32) || ((9 <=? code c) && (code c <=? 13)))%Z.

(** C's [isalnum] on an ASCII byte. *)
Definition isalnum (c : ascii) : bool :=
  (((48 <=? code c) && (code c <=? 57))
   || ((65 <=? code c) && (code c <=? 90))
   || ((97 <=? code c) && (code c <=? 122)))%Z.

(** [String::trim]: the leading, then the trailing white space is
    dropped. *)
Fixpoint trimLeft (s : string) : string :=
  match s with
  | EmptyString => EmptyString
  | String c r => if isspace c then trimLeft r else s
  end.

Fixpoint trimRight (s : string) : string :=
  match s with
  | EmptyString => EmptyString
  | String c r =>
      match trimRight r with
      | EmptyString => if isspace c then EmptyString else String c EmptyString
      | r' => String c r'
      end
  end.

Definition trim (s : string) : string := trimRight (trimLeft s).

(** Do all the characters of a string satisfy a test? *)
Fixpoint forallChars (f : ascii -> bool) (s : string) : bool :=
  match s with
  | EmptyString => true
  | String c r => f c && forallChars f r
  end.

(** How many characters of a string satisfy a test? *)
Fixpoint countChars (f : ascii -> bool) (s : string) : nat :=
  match s with
  | EmptyString => 0
  | String c r => (if f c then 1 else 0) + countChars f r
  end.

Definition isDigit (c : ascii) : bool :=
  ((48 <=? code c) && (code c <=? 57))%Z.

Definition isPoint (c : ascii) : bool := Ascii.eqb c ".".

End WString.

(** ** Entity bridge ([HAIoTBridge]) *)

Module Bridge.
Import WString.

(** [enum class TypeHA]. *)
Inductive TypeHA : Set :=
| HA_CONTROL
| HA_INDICATOR
| HA_BUTTON
| HA_ENTITIES.

Definition TypeHA_eqb (a b : TypeHA) : bool :=
  match a, b with
  | HA_CONTROL, HA_CONTROL
  | HA_INDICATOR, HA_INDICATOR
  | HA_BUTTON, HA_BUTTON
  | HA_ENTITIES, HA_ENTITIES => true
  | _, _ => false
  end.

(** [struct BridgeConfig]; a [const char*] that may be null is an
    [option]. *)
Record BridgeConfig : Set := {
  name : string;
  type : TypeHA;
  topicTo : option string;
  topicFrom : option string;
  resolution : option string;
  defaultValue : option string
}.

(** The private data of [class HAIoTBridge]. *)
Record HAIoTBridge : Set := {
  _name : string;
  _type : TypeHA;
  _topicTo : string;
  _topicFrom : string;
  _resolution : string;
  _defaultValue : string;
  _nvsKey : string;
  _decimals : Z;
  _value : string;
  _valueMem : string;
  _initialized : bool;
  _logWrites : bool
}.

Definition set_values (b : HAIoTBridge) (v m : string) : HAIoTBridge :=
  {| _name := _name b; _type := _type b; _topicTo := _topicTo b;
     _topicFrom := _topicFrom b; _resolution := _resolution b;
     _defaultValue := _defaultValue b; _nvsKey := _nvsKey b;
     _decimals := _decimals b; _value := v; _valueMem := m;
     _initialized := _initialized b; _logWrites := _logWrites b |}.

Definition set_initialized (b : HAIoTBridge) (i : bool) : HAIoTBridge :=
  {| _name := _name b; _type := _type b; _topicTo := _topicTo b;
     _topicFrom := _topicFrom b; _resolution := _resolution b;
     _defaultValue := _defaultValue b; _nvsKey := _nvsKey b;
     _decimals := _decimals b; _value := _value b;
     _valueMem := _valueMem b;
     _initialized := i; _logWrites := _logWrites b |}.

(** What leaves the bridge: NVS writes and removals, MQTT publishes
    ([HestiaCore::publishToMQTT(topic, payload, logIt)]). *)
Inductive Event : Set :=
| NvsPut (key val : string)
| NvsRemove (key : string)
| MqttPublish (topic payload : string) (logIt : bool).

(** The world around a bridge: the NVS namespace ["Pref"] and the log of
    events, oldest first. *)
Record World : Type := {
  nvs : gmap string string;
  events : list Event
}.

Definition State : Type := HAIoTBridge * World.

(** *** Static helpers *)

(** [computeDecimals]: the result is cast to [uint8_t]. *)
Definition computeDecimals (res : string) : Z :=
  let p := indexOf "." res in
  if (p <? 0)%Z then 0%Z
  else ((Z.of_nat (String.length res) - p - 1) mod 256)%Z.

(** The loop of [isFloatLike], from index [i] on. *)
Fixpoint isFloatLike_loop (s : string) (i : nat)
    (pointSeen signSeen digitSeen : bool) : bool :=
  match s with
  | EmptyString => digitSeen
  | String c r =>
      if Ascii.eqb c "-" && Nat.eqb i 0 && negb signSeen
      then isFloatLike_loop r (S i) pointSeen true digitSeen
      else if Ascii.eqb c "."
      then if pointSeen then false
           else isFloatLike_loop r (S i) true signSeen digitSeen
      else if ((code c <? code "0")%Z || (code "9" <? code c)%Z)
      then false
      else isFloatLike_loop r (S i) pointSeen signSeen true
  end.

Definition isFloatLike (s : string) : bool :=
  if isEmpty s then false else isFloatLike_loop s 0 false false false.

(** The loop of [shortenKey]: [sum] is a [uint8_t]. *)
Fixpoint shortenKey_sum (s : string) (sum : Z) : Z :=
  match s with
  | EmptyString => sum
  | String c r => shortenKey_sum r ((sum + code c) mod 256)%Z
  end.

Definition shortenKey (full : string) : string :=
  if (String.length full <=? 15)%nat then full
  else
    let sum := shortenKey_sum full 0 in
    let suffix := ofInt (sum mod 10) in
    substring_from (String.length full - 14) full ++ suffix.

(** *** Constructor *)

Definition orEmpty (p : option string) : string :=
  match p with
  | Some s => s
  | None => ""
  end.

Definition construct (cfg : BridgeConfig) : HAIoTBridge :=
  {| _name := name cfg;
     _type := type cfg;
     _topicTo := orEmpty (topicTo cfg);
     _topicFrom := orEmpty (topicFrom cfg);
     _resolution := orEmpty (resolution cfg);
     _defaultValue := orEmpty (defaultValue cfg);
     _nvsKey := shortenKey (name cfg);
     _decimals := computeDecimals (orEmpty (resolution cfg));
     _value := "";
     _valueMem := "";
     _initialized := false;
     _logWrites := true |}.

(** *** Effects *)

Definition emit (e : Event) (w : World) : World :=
  {| nvs := nvs w; events := events w ++ [e] |}.

(** [preferences.putString(key, val)] on namespace ["Pref"]. *)
Definition putString (key val : string) (w : World) : World :=
  {| nvs := <[key := val]> (nvs w);
     events := events w ++ [NvsPut key val] |}.

(** [preferences.remove(key)]. *)
Definition removeKey (key : string) (w : World) : World :=
  {| nvs := delete key (nvs w);
     events := events w ++ [NvsRemove key] |}.

(** [preferences.getString(key, "")]. *)
Definition getString (key : string) (w : World) : string :=
  default "" (nvs w !! key).

(** [HAIoTBridge::publish]. *)
Definition publish (b : HAIoTBridge) (val : string) (w : World) : World :=
  if (String.length (_topicTo b) =? 0)%nat then w
  else emit (MqttPublish (_topicTo b) val (_logWrites b)) w.

(** [HAIoTBridge::saveAndPublish]. *)
Definition saveAndPublish (b : HAIoTBridge) (val : string) (w : World)
    : World :=
  let w1 :=
    if (String.length (_nvsKey b) <=? 15)%nat && TypeHA_eqb (_type b) HA_CONTROL
    then putString (_nvsKey b) val w
    else w in
  publish b val w1.

(** [HAIoTBridge::publishValueToHA]. *)
Definition publishValueToHA (st : State) : State :=
  let (b, w) := st in
  if TypeHA_eqb (_type b) HA_CONTROL then (b, publish b (_value b) w)
  else (b, w).

(** [HAIoTBridge::write(const String&)]. *)
Definition write (v : string) (st : State) : State :=
  let (b, w) := st in
  let b1 := set_values b v v in
  if TypeHA_eqb (_type b1) HA_CONTROL
  then (b1, saveAndPublish b1 (_value b1) w)
  else (b1, publish b1 (_value b1) w).

(** The overloads of [write] for C strings, [int] and [bool]. *)
Definition write_cstr (v : string) (st : State) : State := write v st.
Definition write_int (v : Z) (st : State) : State := write (ofInt v) st.
Definition write_bool (v : bool) (st : State) : State :=
  write_cstr (if v then "ON" else "OFF") st.

(** [HAIoTBridge::onChange]. *)
Definition onChange (b : HAIoTBridge) : bool * HAIoTBridge :=
  if isEmpty (_value b) then (false, b)
  else if TypeHA_eqb (_type b) HA_BUTTON then (true, set_values b "" "")
  else if String.eqb (_value b) (_valueMem b) then (false, b)
  else (true, set_values b (_value b) (_value b)).

(** [HAIoTBridge::readMQTT]. *)
Definition readMQTT (topic payload : string) (flushMode : bool)
    (st : State) : bool * State :=
  let (b, w) := st in
  if isEmpty (_topicFrom b) || TypeHA_eqb (_type b) HA_INDICATOR
  then (false, st)
  else if flushMode && negb (TypeHA_eqb (_type b) HA_ENTITIES)
  then (false, st)
  else if negb (String.eqb topic (_topicFrom b))
  then (false, st)
  else
    let b1 := set_values b payload (_valueMem b) in
    let w1 := if TypeHA_eqb (_type b1) HA_CONTROL
              then saveAndPublish b1 (_value b1) w
              else w in
    (true, (b1, w1)).

(** [HAIoTBridge::reset]. *)
Definition reset (st : State) : State :=
  let (b, w) := st in
  (set_values b "" "", removeKey (_nvsKey b) w).

(** [n] successive calls of [onChange]: the results, and the bridge they
    leave. *)
Fixpoint onChange_repeat (n : nat) (b : HAIoTBridge)
    : list bool * HAIoTBridge :=
  match n with
  | O => ([], b)
  | S k =>
      let (r, b1) := onChange b in
      let (rs, b2) := onChange_repeat k b1 in
      (r :: rs, b2)
  end.

(** *** Float rendering

    [String(s.toFloat(), dec)] is the Arduino core's; it is taken as a
    parameter. *)
Section FloatRendering.

Variable renderFloat : string -> Z -> string.

(** [HAIoTBridge::normalize]. *)
Definition normalize (dec : Z) (s : string) : string :=
  if isFloatLike s then renderFloat s dec else s.

(** [HAIoTBridge::init]. *)
Definition init (st : State) : State :=
  let (b, w) := st in
  let b1 :=
    if TypeHA_eqb (_type b) HA_CONTROL then
      let val := getString (_nvsKey b) w in
      if isEmpty val && negb (isEmpty (_defaultValue b))
      then set_values b (_defaultValue b) (_defaultValue b)
      else
        let v := normalize (_decimals b) val in
        set_values b v v
    else set_values b (_defaultValue b) (_defaultValue b) in
  (set_initialized b1 true, w).

End FloatRendering.

(** [HAIoTBridge::read]. *)
Definition read (b : HAIoTBridge) : string := _value b.

(** [HAIoTBridge::readBool]. *)
Definition readBool (b : HAIoTBridge) : bool :=
  equalsIgnoreCase (_value b) "true"
  || equalsIgnoreCase (_value b) "on"
  || String.eqb (_value b) "1".

(** [HAIoTBridge::isInitialized]. *)
Definition isInitialized (b : HAIoTBridge) : bool := _initialized b.

(** *** Sequences of calls on one bridge *)

(** The calls application code and the dispatcher make on a bridge. *)
Inductive Op : Set :=
| OpInit
| OpWrite (v : string)
| OpWriteInt (v : Z)
| OpWriteBool (v : bool)
| OpOnChange
| OpReadMQTT (topic payload : string) (flushMode : bool)
| OpPublishValueToHA
| OpReset.

Definition is_init (op : Op) : bool :=
  match op with
  | OpInit => true
  | _ => false
  end.

Section Calls.

Variable renderFloat : string -> Z -> string.

Definition call (op : Op) (st : State) : State :=
  match op with
  | OpInit => init renderFloat st
  | OpWrite v => write v st
  | OpWriteInt v => write_int v st
  | OpWriteBool v => write_bool v st
  | OpOnChange => (snd (onChange (fst st)), snd st)
  | OpReadMQTT topic payload flushMode =>
      snd (readMQTT topic payload flushMode st)
  | OpPublishValueToHA => publishValueToHA st
  | OpReset => reset st
  end.

Fixpoint calls (ops : list Op) (st : State) : State :=
  match ops with
  | [] => st
  | op :: rest => calls rest (call op st)
  end.

End Calls.

(** The bridge the constructor gives again, after a restart, for the
    configuration of [b]. *)
Definition reboot (b : HAIoTBridge) : HAIoTBridge :=
  set_initialized (set_values b "" "") false.

(** An event a bridge is entitled to: a write or removal under its own NVS
    key, or a publish on its own, non-empty, outbound topic. *)
Definition own_event (b : HAIoTBridge) (e : Event) : Prop :=
  match e with
  | NvsPut key _ => key = _nvsKey b /\ _type b = HA_CONTROL
  | NvsRemove key => key = _nvsKey b
  | MqttPublish topic _ logIt =>
      topic = _topicTo b /\ topic <> "" /\ logIt = _logWrites b
  end.

(** The part of a bridge no method assigns. *)
Definition same_config (a b : HAIoTBridge) : Prop :=
  _name a = _name b /\ _type a = _type b /\ _topicTo a = _topicTo b
  /\ _topicFrom a = _topicFrom b /\ _resolution a = _resolution b
  /\ _defaultValue a = _defaultValue b /\ _nvsKey a = _nvsKey b
  /\ _decimals a = _decimals b /\ _logWrites a = _logWrites b.

(** What calls may add to the world [w] they start from: events of the
    bridge's own, and no change under a key of another. *)
Definition step_ok (b : HAIoTBridge) (w : World) (st' : State) : Prop :=
  same_config (fst st') b
  /\ (exists new, events (snd st') = (events w ++ new)%list
                  /\ Forall (own_event b) new)
  /\ (forall k, k <> _nvsKey b -> nvs (snd st') !! k = nvs w !! k).

(** The declarative reading of the float test: an optional leading minus
    sign, then digits with at most one point among them, and at least one
    digit. *)
Definition unsigned_part (s : string) : string :=
  match s with
  | String "-" r => r
  | _ => s
  end.

Definition float_shape (s : string) : Prop :=
  let body := unsigned_part s in
  forallChars (fun c => isDigit c || isPoint c) body = true
  /\ countChars isPoint body <= 1
  /\ 1 <= countChars isDigit body.

(** *** Reference notions for the properties below *)

(** The invariant the constructor sets up and no method changes: the NVS key
    and the precision are derived from the name and the resolution. *)
Definition constructed (b : HAIoTBridge) : Prop :=
  _nvsKey b = shortenKey (_name b)
  /\ _decimals b = computeDecimals (_resolution b).

(** The sum of the character codes of a string, without wrap-around. *)
Fixpoint charSum (s : string) : Z :=
  match s with
  | EmptyString => 0%Z
  | String c r => (code c + charSum r)%Z
  end.

(** The decimal digit [d] as a one-character string. *)
Definition digit (d : Z) : string :=
  String (ascii_of_N (Z.to_N (48 + d))) EmptyString.

(** The shortening scheme as the specification words it: the last 14
    characters, then the digit of the sum of the character codes
    modulo 10. *)
Definition shortenKey_spec (full : string) : string :=
  if (String.length full <=? 15)%nat then full
  else substring_from (String.length full - 14) full
       ++ digit (charSum full mod 10).

(** A Control entity with two decimals of precision, and an empty world. *)
Definition setpoint : HAIoTBridge :=
  construct {| name := "IotBridge_setpoint"; type := HA_CONTROL;
               topicTo := Some "Virgo/setpoint/toHA";
               topicFrom := Some "Virgo/setpoint/fromHA";
               resolution := Some "0.01";
               defaultValue := Some "20.00" |}.

(** The trigger of the Virgo example table. *)
Definition ota : HAIoTBridge :=
  construct {| name := "IotBridge_OTA"; type := HA_BUTTON;
               topicTo := Some "Virgo/OTA/toHA";
               topicFrom := Some "Virgo/OTA/fromHA";
               resolution := Some "";
               defaultValue := Some "" |}.

(** The hub-presence entity of the Virgo example table. *)
Definition ha_online : HAIoTBridge :=
  construct {| name := "IotBridge_HA_online"; type := HA_ENTITIES;
               topicTo := Some "";
               topicFrom := Some "HA/domotique/online";
               resolution := Some "";
               defaultValue := Some "false" |}.

Definition emptyWorld : World := {| nvs := ∅; events := [] |}.

(** The hub announces itself, the application acknowledges the change, then
    the hub sends an empty payload on the same topic. *)
Definition ha_online_cleared : HAIoTBridge :=
  let st1 := snd (readMQTT "HA/domotique/online" "true" false
                           (ha_online, emptyWorld)) in
  let b2 := snd (onChange (fst st1)) in
  fst (snd (readMQTT "HA/domotique/online" "" false (b2, snd st1))).

End Bridge.

(** ** Network guards ([HestiaNet]) *)

Module Net.

(** *** Machine arithmetic and the Arduino core *)

(** [unsigned long] is 32 bits wide on the target. *)
Definition wrap32 (z : Z) : Z := (z mod 2 ^ 32)%Z.

(** [millis()] at real time [t] (milliseconds since boot). *)
Definition millis (t : Z) : Z := wrap32 t.

(** [a - b] on [unsigned long]. *)
Definition sub32 (a b : Z) : Z := wrap32 (a - b).

(** [uint8_t] increment. *)
Definition incr8 (n : Z) : Z := ((n + 1) mod 256)%Z.

(** The Arduino core's [random(howsmall, howbig)], on the raw draw [raw] of
    the generator: [howsmall] when the range is empty, otherwise
    [raw % (howbig - howsmall) + howsmall]. *)
Definition random (howsmall howbig raw : Z) : Z :=
  if (howbig <=? howsmall)%Z then howsmall
  else (raw mod (howbig - howsmall) + howsmall)%Z.

(** [wl_status_t]. *)
Inductive wl_status_t : Set :=
| WL_NO_SHIELD
| WL_IDLE_STATUS
| WL_NO_SSID_AVAIL
| WL_SCAN_COMPLETED
| WL_CONNECTED
| WL_CONNECT_FAILED
| WL_CONNECTION_LOST
| WL_DISCONNECTED.

Definition is_connected (st : wl_status_t) : bool :=
  match st with
  | WL_CONNECTED => true
  | _ => false
  end.

(** Calls into the radio driver and the MQTT client, in program order. *)
Inductive Event : Set :=
| WiFiScanNetworks
| WiFiDisconnect (wifioff eraseap : bool)
| Delay (ms : Z)
| WiFiModeSTA
| WiFiSetHostname (hostname : string)
| WiFiBegin (ssid pass : string)
| ClientSetKeepAlive (seconds : Z)
| ClientSetCleanSession (clean : bool)
| ClientBegin (host : string) (port : Z)
| ClientConnect (clientId user pass : string)
| ClientPublish (topic payload : string) (retained : bool) (qos : Z).

(** *** Wi-Fi guard: [tryWiFiConnectNonBlocking_V2] *)

(** The function's [static] variables. *)
Record WiFiGuard : Set := {
  lastAttempt : Z;
  lastReset : Z;
  tryCount : Z;
  delayNext : Z;
  connecting : bool;
  ssidVisible : bool;
  lastScan : Z
}.

(** Their initial values. *)
Definition WiFiGuard_boot : WiFiGuard :=
  {| lastAttempt := 0; lastReset := 0; tryCount := 0; delayNext := 100;
     connecting := false; ssidVisible := true; lastScan := 0 |}.

(** What one call reads from its surroundings. Each [t_...] is the real time
    (milliseconds since boot) at which the [millis()] call of that program
    point is made; the code sees [millis t]. *)
Record WiFiPoll : Set := {
  cfgwifi_ssid : string;
  cfgwifi_pass : string;
  cfgdevice_id : string;
  st : wl_status_t;
  scanned : list string;
  t_cooldown : Z;
  t_scanGate : Z;
  t_scanDone : Z;
  t_inflight : Z;
  t_backoff : Z;
  t_resetGate : Z;
  t_resetDone : Z;
  t_attempt : Z;
  raw_random : Z
}.

(** The scan loop: is the configured SSID among the networks found? *)
Fixpoint ssid_found (ssid : string) (networks : list string) : bool :=
  match networks with
  | [] => false
  | n :: rest => if String.eqb n ssid then true else ssid_found ssid rest
  end.

(** The backoff expression of the Wi-Fi guard. *)
Definition wifiBackoff (tryCount raw : Z) : Z :=
  if (tryCount <=? 5)%Z
  then wrap32 (wrap32 (Z.shiftl 100 tryCount) + random 0 50 raw)
  else 10000%Z.

(** Step 3 of the guard, the diagnostic scan. The boolean tells whether
    the call goes on to step 4 (it returns false here otherwise). *)
Definition wifi_scan (s : WiFiGuard) (e : WiFiPoll)
    : bool * WiFiGuard * list Event :=
  if (5 <=? tryCount s)%Z
     && (30000 <? sub32 (millis (t_scanGate e)) (lastScan s))%Z
  then
    let visible := ssid_found (cfgwifi_ssid e) (scanned e) in
    let s1 := {| lastAttempt := lastAttempt s; lastReset := lastReset s;
                 tryCount := tryCount s; delayNext := delayNext s;
                 connecting := connecting s; ssidVisible := visible;
                 lastScan := millis (t_scanDone e) |} in
    if negb (ssidVisible s1) then (false, s1, [WiFiScanNetworks])
    else
      (true,
       {| lastAttempt := lastAttempt s1; lastReset := lastReset s1;
          tryCount := 0; delayNext := delayNext s1;
          connecting := connecting s1; ssidVisible := ssidVisible s1;
          lastScan := lastScan s1 |},
       [WiFiScanNetworks])
  else (true, s, []).

(** Steps 5 to 7: driver reset when due, the attach call, the new backoff. *)
Definition wifi_attach (s : WiFiGuard) (e : WiFiPoll)
    : WiFiGuard * list Event :=
  let due := (5000 <? sub32 (millis (t_resetGate e)) (lastReset s))%Z in
  let resetEvents :=
    if due
    then [WiFiDisconnect true true; Delay 50; WiFiModeSTA;
          WiFiSetHostname (cfgdevice_id e)]
    else [] in
  let lastReset1 := if due then millis (t_resetDone e) else lastReset s in
  let tryCount1 := incr8 (tryCount s) in
  ({| lastAttempt := millis (t_attempt e);
      lastReset := lastReset1;
      tryCount := tryCount1;
      delayNext := wifiBackoff tryCount1 (raw_random e);
      connecting := true;
      ssidVisible := ssidVisible s;
      lastScan := lastScan s |},
   (resetEvents ++ [WiFiBegin (cfgwifi_ssid e) (cfgwifi_pass e)])%list).

(** [tryWiFiConnectNonBlocking_V2]: the result, the new statics, the calls
    made. *)
Definition tryWiFiConnectNonBlocking_V2 (s : WiFiGuard) (e : WiFiPoll)
    : bool * WiFiGuard * list Event :=
  if is_connected (st e)
  then (true,
        {| lastAttempt := lastAttempt s; lastReset := lastReset s;
           tryCount := 0; delayNext := 100; connecting := false;
           ssidVisible := ssidVisible s; lastScan := lastScan s |},
        [])
  else if negb (ssidVisible s)
          && (sub32 (millis (t_cooldown e)) (lastScan s) <? 30000)%Z
  then (false, s, [])
  else
    match wifi_scan s e with
    | (false, s1, evs) => (false, s1, evs)
    | (true, s1, evs) =>
        if connecting s1
           && (sub32 (millis (t_inflight e)) (lastAttempt s1) <? 8000)%Z
        then (false, s1, evs)
        else if (sub32 (millis (t_backoff e)) (lastAttempt s1) <? delayNext s1)%Z
        then (false, s1, evs)
        else
          let (s2, evs2) := wifi_attach s1 e in
          (false, s2, (evs ++ evs2)%list)
    end.

(** [tryWiFiConnectNonBlocking]. *)
Definition tryWiFiConnectNonBlocking (s : WiFiGuard) (e : WiFiPoll)
    : bool * WiFiGuard * list Event :=
  tryWiFiConnectNonBlocking_V2 s e.

Definition wifi_result (s : WiFiGuard) (e : WiFiPoll) : bool :=
  fst (fst (tryWiFiConnectNonBlocking s e)).

Definition wifi_next (s : WiFiGuard) (e : WiFiPoll) : WiFiGuard :=
  snd (fst (tryWiFiConnectNonBlocking s e)).

Definition wifi_events (s : WiFiGuard) (e : WiFiPoll) : list Event :=
  snd (tryWiFiConnectNonBlocking s e).

Definition is_begin (ev : Event) : bool :=
  match ev with
  | WiFiBegin _ _ => true
  | _ => false
  end.

(** Does this call issue a radio attach call? *)
Definition attaches (s : WiFiGuard) (e : WiFiPoll) : bool :=
  existsb is_begin (wifi_events s e).

(** The statics after a sequence of calls. *)
Fixpoint wifi_run (s : WiFiGuard) (es : list WiFiPoll) : WiFiGuard :=
  match es with
  | [] => s
  | e :: rest => wifi_run (wifi_next s e) rest
  end.

(** Does some call of the sequence issue an attach call? *)
Fixpoint wifi_run_attaches (s : WiFiGuard) (es : list WiFiPoll) : bool :=
  match es with
  | [] => false
  | e :: rest => attaches s e || wifi_run_attaches (wifi_next s e) rest
  end.

(** Does some call of the sequence find the link attached? *)
Definition sees_connected (es : list WiFiPoll) : bool :=
  existsb (fun e => is_connected (st e)) es.

(** *** MQTT guard: [tryMQTTConnectNonBlocking] *)

(** The function's [static] variables. *)
Record MQTTGuard : Set := {
  initialized : bool;
  wasConnected : bool;
  mqtt_lastAttempt : Z;
  mqtt_tryCount : Z;
  nextDelay : Z
}.

Definition MQTTGuard_boot : MQTTGuard :=
  {| initialized := false; wasConnected := false; mqtt_lastAttempt := 0;
     mqtt_tryCount := 0; nextDelay := 100 |}.

(** What one call reads from its surroundings: the link status, the
    configuration, [client.connected()], the outcome [client.connect] has
    if it is called, the times of the two [millis()] calls and the raw
    draw of [random]. *)
Record MQTTPoll : Set := {
  wifi_status : wl_status_t;
  cfgmqtt_ip : string;
  cfgmqtt_port : Z;
  mqtt_device_id : string;
  cfgmqtt_user : string;
  cfgmqtt_pass : string;
  client_connected : bool;
  connect_ok : bool;
  t_gate : Z;
  t_stamp : Z;
  mqtt_raw_random : Z
}.

(** The backoff expression of the MQTT guard. *)
Definition mqttBackoff (tryCount raw : Z) : Z :=
  if (tryCount <=? 5)%Z
  then wrap32 (wrap32 (Z.shiftl 100 tryCount) + random 0 50 raw)
  else 10000%Z.

(** Step 1: the client is set up once. *)
Definition mqtt_setup (s : MQTTGuard) (e : MQTTPoll)
    : MQTTGuard * list Event :=
  if negb (initialized s)
  then ({| initialized := true; wasConnected := wasConnected s;
           mqtt_lastAttempt := mqtt_lastAttempt s;
           mqtt_tryCount := mqtt_tryCount s; nextDelay := nextDelay s |},
        [ClientSetKeepAlive 20; ClientSetCleanSession true;
         ClientBegin (cfgmqtt_ip e) (cfgmqtt_port e); Delay 10])
  else (s, []).

(** [tryMQTTConnectNonBlocking]. *)
Definition tryMQTTConnectNonBlocking (s : MQTTGuard) (e : MQTTPoll)
    : bool * MQTTGuard * list Event :=
  if negb (is_connected (wifi_status e)) then (false, s, [])
  else
    let (s1, evs) := mqtt_setup s e in
    if client_connected e
    then
      if negb (wasConnected s1)
      then (true,
            {| initialized := initialized s1; wasConnected := true;
               mqtt_lastAttempt := mqtt_lastAttempt s1;
               mqtt_tryCount := 0; nextDelay := 100 |},
            evs)
      else (true, s1, evs)
    else
      let s2 := {| initialized := initialized s1; wasConnected := false;
                   mqtt_lastAttempt := mqtt_lastAttempt s1;
                   mqtt_tryCount := mqtt_tryCount s1;
                   nextDelay := nextDelay s1 |} in
      if (sub32 (millis (t_gate e)) (mqtt_lastAttempt s2) <? nextDelay s2)%Z
      then (false, s2, evs)
      else
        let stamp := millis (t_stamp e) in
        let call := ClientConnect (mqtt_device_id e) (cfgmqtt_user e)
                                  (cfgmqtt_pass e) in
        if connect_ok e
        then (false,
              {| initialized := initialized s2; wasConnected := true;
                 mqtt_lastAttempt := stamp;
                 mqtt_tryCount := 0; nextDelay := 100 |},
              (evs ++ [call])%list)
        else
          let tryCount1 := incr8 (mqtt_tryCount s2) in
          (false,
           {| initialized := initialized s2; wasConnected := wasConnected s2;
              mqtt_lastAttempt := stamp;
              mqtt_tryCount := tryCount1;
              nextDelay := mqttBackoff tryCount1 (mqtt_raw_random e) |},
           (evs ++ [call])%list).

Definition mqtt_result (s : MQTTGuard) (e : MQTTPoll) : bool :=
  fst (fst (tryMQTTConnectNonBlocking s e)).

Definition mqtt_next (s : MQTTGuard) (e : MQTTPoll) : MQTTGuard :=
  snd (fst (tryMQTTConnectNonBlocking s e)).

Definition mqtt_events (s : MQTTGuard) (e : MQTTPoll) : list Event :=
  snd (tryMQTTConnectNonBlocking s e).

Definition is_connect (ev : Event) : bool :=
  match ev with
  | ClientConnect _ _ _ => true
  | _ => false
  end.

(** *** Discovery publisher: [MQTTDiscovery] *)

(** A parsed JSON document, as ArduinoJson hands it out. *)
#[local] Unset Elimination Schemes.
Inductive JsonValue : Set :=
| JNull
| JBool (b : bool)
| JNumber (literal : string)
| JString (s : string)
| JArray (items : list JsonValue)
| JObject (members : list (string * JsonValue)).
#[local] Set Elimination Schemes.

(** [obj[key]] on the members of an object. *)
Fixpoint member (key : string) (members : list (string * JsonValue))
    : option JsonValue :=
  match members with
  | [] => None
  | (k, v) :: rest => if String.eqb k key then Some v else member key rest
  end.

(** [doc.containsKey(key)]: false when the root is not an object. *)
Definition containsKey (doc : JsonValue) (key : string) : bool :=
  match doc with
  | JObject ms => match member key ms with Some _ => true | None => false end
  | _ => false
  end.

(** [doc[key]]: null when the root is not an object or has no such
    member. *)
Definition get (doc : JsonValue) (key : string) : JsonValue :=
  match doc with
  | JObject ms => default JNull (member key ms)
  | _ => JNull
  end.

(** [v.is<JsonObject>()]. *)
Definition isJsonObject (v : JsonValue) : bool :=
  match v with
  | JObject _ => true
  | _ => false
  end.

(** [v.as<JsonObject>().size()]: no members when [v] is not an object. *)
Definition objectSize (v : JsonValue) : nat :=
  match v with
  | JObject ms => length ms
  | _ => 0
  end.

(** The structural requirement on a discovery document: a ["device"]
    member that is an object, and a ["cmps"] member that is an object with
    at least one member. *)
Definition well_structured (doc : JsonValue) : Prop :=
  exists members device cmps,
    doc = JObject members
    /\ member "device" members = Some (JObject device)
    /\ member "cmps" members = Some (JObject cmps)
    /\ cmps <> [].

(** The structural checks of [MQTTDiscovery], in the order of the code. *)
Definition structure_ok (doc : JsonValue) : bool :=
  if negb (containsKey doc "device") || negb (isJsonObject (get doc "device"))
  then false
  else if negb (containsKey doc "cmps") || negb (isJsonObject (get doc "cmps"))
  then false
  else if (objectSize (get doc "cmps") =? 0)%nat then false
  else true.

(** The topic the discovery payload goes to. *)
Definition discovery_topic (device_id : string) : string :=
  "homeassistant/device/" ++ device_id ++ "/config".

Section Discovery.

(** [deserializeJson(doc, payload)] is ArduinoJson's: [None] is a
    [DeserializationError], [Some doc] the document of a payload that
    parses. *)
Variable deserializeJson : string -> option JsonValue.

(** [MQTTDiscovery], given [client.connected()], the pointer
    [g_discoveryJson] ([None] when null) and the parameter [device_id]:
    the calls made on the client. *)
Definition MQTTDiscovery (connected : bool) (g_discoveryJson : option string)
    (device_id : string) : list Event :=
  if negb connected then []
  else
    match g_discoveryJson with
    | None => []
    | Some payload =>
        match deserializeJson payload with
        | None => []
        | Some doc =>
            if negb (containsKey doc "device")
               || negb (isJsonObject (get doc "device"))
            then []
            else if negb (containsKey doc "cmps")
                    || negb (isJsonObject (get doc "cmps"))
            then []
            else if (objectSize (get doc "cmps") =? 0)%nat
            then []
            else
              let topic := "homeassistant/device/" ++ device_id ++ "/config" in
              [ClientPublish topic payload true 1]
        end
    end.

End Discovery.

(** A small discovery document in the shape of the Virgo example, the text
    it is parsed from, and a parser that knows this text only. *)
Definition sample_doc : JsonValue :=
  JObject
    [("device", JObject [("identifiers", JString "Virgo");
                         ("name", JString "Virgo")]);
     ("o", JObject [("name", JString "Virgo")]);
     ("cmps", JObject [("ip", JObject [("p", JString "sensor");
                                       ("stat_t", JString "Virgo/ip/toHA")])])].

Definition quoted (s : string) : string :=
  let q := String (ascii_of_nat 34) EmptyString in q ++ s ++ q.

Definition sample_payload : string :=
  "{" ++ quoted "device" ++ ":{" ++ quoted "identifiers" ++ ":"
  ++ quoted "Virgo" ++ "," ++ quoted "name" ++ ":" ++ quoted "Virgo" ++ "},"
  ++ quoted "o" ++ ":{" ++ quoted "name" ++ ":" ++ quoted "Virgo" ++ "},"
  ++ quoted "cmps" ++ ":{" ++ quoted "ip" ++ ":{" ++ quoted "p" ++ ":"
  ++ quoted "sensor" ++ "," ++ quoted "stat_t" ++ ":"
  ++ quoted "Virgo/ip/toHA" ++ "}}}".

(** The same device with no component. *)
Definition empty_cmps_doc : JsonValue :=
  JObject [("device", JObject [("name", JString "Virgo")]);
           ("cmps", JObject [])].

Definition empty_cmps_payload : string :=
  "{" ++ quoted "device" ++ ":{" ++ quoted "name" ++ ":" ++ quoted "Virgo"
  ++ "}," ++ quoted "cmps" ++ ":{}}".

Definition sample_parser (payload : string) : option JsonValue :=
  if String.eqb payload sample_payload then Some sample_doc
  else if String.eqb payload empty_cmps_payload then Some empty_cmps_doc
  else None.

(** *** Traces of the guards *)

(** The calls a sequence of polls of the Wi-Fi guard makes, in order. *)
Fixpoint wifi_run_events (s : WiFiGuard) (es : list WiFiPoll) : list Event :=
  match es with
  | [] => []
  | e :: rest => (wifi_events s e ++ wifi_run_events (wifi_next s e) rest)%list
  end.

Definition is_scan (ev : Event) : bool :=
  match ev with
  | WiFiScanNetworks => true
  | _ => false
  end.

(** The number of radio attach calls in a trace. *)
Definition count_begins (evs : list Event) : nat :=
  length (List.filter is_begin evs).

(** The statics of the MQTT guard after a sequence of polls, and the calls
    made. *)
Fixpoint mqtt_run (s : MQTTGuard) (es : list MQTTPoll) : MQTTGuard :=
  match es with
  | [] => s
  | e :: rest => mqtt_run (mqtt_next s e) rest
  end.

Fixpoint mqtt_run_events (s : MQTTGuard) (es : list MQTTPoll) : list Event :=
  match es with
  | [] => []
  | e :: rest => (mqtt_events s e ++ mqtt_run_events (mqtt_next s e) rest)%list
  end.

(** Does some poll of the sequence issue a session attach call? *)
Fixpoint mqtt_run_connects (s : MQTTGuard) (es : list MQTTPoll) : bool :=
  match es with
  | [] => false
  | e :: rest =>
      existsb is_connect (mqtt_events s e)
      || mqtt_run_connects (mqtt_next s e) rest
  end.

Definition is_client_begin (ev : Event) : bool :=
  match ev with
  | ClientBegin _ _ => true
  | _ => false
  end.

(** A trace is in order when the client is set up at most once and no
    session attach call comes before the set-up; [begun] tells whether the
    set-up has been seen. *)
Fixpoint setup_in_order (begun : bool) (evs : list Event) : bool :=
  match evs with
  | [] => true
  | ClientBegin _ _ :: rest => negb begun && setup_in_order true rest
  | ClientConnect _ _ _ :: rest => begun && setup_in_order begun rest
  | _ :: rest => setup_in_order begun rest
  end.

(** *** The pump: [MQTTrefreshWithDelay] *)

(** The cast [(long)] of an [unsigned long]. *)
Definition to_long (z : Z) : Z :=
  if (z <? 2 ^ 31)%Z then z else (z - 2 ^ 32)%Z.

(** The loop of the pump. [ticks] are the times at which the loop condition
    reads [millis()]; the result is the number of [client.loop()] calls and
    whether the loop has exited within these readings. *)
Fixpoint pump_loop (until : Z) (ticks : list Z) : nat * bool :=
  match ticks with
  | [] => (0, false)
  | t :: rest =>
      if (0 <? to_long (sub32 until (millis t)))%Z
      then let (n, done) := pump_loop until rest in (S n, done)
      else (0, true)
  end.

(** [MQTTrefreshWithDelay(ms)]: [t0] is the time of the [millis()] call that
    fixes the deadline. *)
Definition MQTTrefreshWithDelay (status : wl_status_t) (connected : bool)
    (ms t0 : Z) (ticks : list Z) : nat * bool :=
  if negb (is_connected status) then (0, true)
  else if negb connected then (0, true)
  else pump_loop (wrap32 (millis t0 + ms)) ticks.

(** The readings of a clock that is polled at [t0 + d], [t0 + 2 d], ... *)
Fixpoint clock (t0 d : Z) (n : nat) : list Z :=
  match n with
  | O => []
  | S k => (t0 + d)%Z :: clock (t0 + d) d k
  end.

(** A poll of the MQTT guard at time [t]. *)
Definition mqtt_poll_at (link : wl_status_t) (session ok : bool) (t : Z)
    : MQTTPoll :=
  {| wifi_status := link; cfgmqtt_ip := "192.168.1.10"; cfgmqtt_port := 1883;
     mqtt_device_id := "Virgo"; cfgmqtt_user := "hestia";
     cfgmqtt_pass := "secret"; client_connected := session;
     connect_ok := ok; t_gate := t; t_stamp := (t + 1)%Z;
     mqtt_raw_random := 123457 |}.



(** A call of the Wi-Fi guard at time [t], a few milliseconds long. *)
Definition poll_at (status : wl_status_t) (t : Z) : WiFiPoll :=
  {| cfgwifi_ssid := "home"; cfgwifi_pass := "secret";
     cfgdevice_id := "Virgo"; st := status; scanned := [];
     t_cooldown := t; t_scanGate := t; t_scanDone := t; t_inflight := t;
     t_backoff := (t + 1)%Z; t_resetGate := (t + 1)%Z;
     t_resetDone := (t + 51)%Z; t_attempt := (t + 5)%Z;
     raw_random := 123457 |}.

End Net.

(** ** Configuration parameters ([HestiaParam], [HestiaConfig]) *)

Module Config.
Import WString.

(** [HestiaParam::nvsKey]: the last 15 characters of a longer key. *)
Definition nvsKey (jsonKey : string) : string :=
  if (String.length jsonKey <=? 15)%nat then jsonKey
  else substring_from (String.length jsonKey - 15) jsonKey.

Section Params.

(** [double] values, what [String::toFloat] makes of a text, and the
    comparison [<] on them, are the platform's. So is
    [sscanf(s, "%d.%d.%d.%d", ...)]: [None] stands for a result other
    than 4. *)
Context {Double : Type}.
Variable toFloat : string -> Double.
Variable dlt : Double -> Double -> bool.
Variable sscanf_ip : string -> option (Z * Z * Z * Z).

(** The [validators] member. *)
Record Validators : Type := {
  minLen : Z;
  maxLen : Z;
  min : Double;
  max : Double;
  hasMin : bool;
  hasMax : bool
}.

(** The data of [class HestiaParam]. *)
Record HestiaParam : Type := {
  key : string;
  type : string;
  label : string;
  provisioning : bool;
  required : bool;
  critical : bool;
  defaultValue : string;
  _value : string;
  decimals : Z;
  validators : Validators;
  pattern : string
}.

Definition set_value (p : HestiaParam) (v : string) : HestiaParam :=
  {| key := key p; type := type p; label := label p;
     provisioning := provisioning p; required := required p;
     critical := critical p; defaultValue := defaultValue p; _value := v;
     decimals := decimals p; validators := validators p;
     pattern := pattern p |}.

(** [HestiaParam::write(const String&)]: the result and the parameter. *)
Definition write (v : string) (p : HestiaParam) : bool * HestiaParam :=
  let x := trim v in
  if String.eqb (type p) "bool" then
    let low := toLowerCase x in
    if String.eqb low "true" || String.eqb low "on" || String.eqb low "1"
    then (true, set_value p "true")
    else if String.eqb low "false" || String.eqb low "off"
            || String.eqb low "0"
    then (true, set_value p "false")
    else (true, set_value p x)
  else (true, set_value p x).

(** The overloads for [int], [long] and [bool]. *)
Definition write_int (v : Z) (p : HestiaParam) : bool * HestiaParam :=
  write (ofInt v) p.

Definition write_bool (v : bool) (p : HestiaParam) : bool * HestiaParam :=
  write (if v then "true" else "false") p.

(** [HestiaParam::read]. *)
Definition read (p : HestiaParam) : string := _value p.

(** [HestiaParam::readBool]. *)
Definition readBool (p : HestiaParam) : bool :=
  let v := trim (toLowerCase (_value p)) in
  if String.eqb v "true" || String.eqb v "1" || String.eqb v "on" then true
  else if String.eqb v "false" || String.eqb v "0" || String.eqb v "off"
  then false
  else false.

(** [HestiaParam::validatePattern]. *)
Definition validatePattern (p : HestiaParam) (candidate : string) : bool :=
  if String.eqb (pattern p) "anything" then true
  else if String.eqb (pattern p) "bool"
  then String.eqb candidate "true" || String.eqb candidate "false"
  else if String.eqb (pattern p) "ip" then
    match sscanf_ip candidate with
    | None => false
    | Some (a, b, c, d) =>
        ((1 <=? a) && (a <=? 255) && (1 <=? b) && (b <=? 255)
         && (1 <=? c) && (c <=? 255) && (1 <=? d) && (d <=? 255))%Z
    end
  else if String.eqb (pattern p) "hostname" then
    if (String.length candidate <? 1)%nat || (64 <? String.length candidate)%nat
    then false
    else forallChars
           (fun c => isalnum c || Ascii.eqb c "-" || Ascii.eqb c ".")
           candidate
  else true.

(** [HestiaParam::validateRange]. *)
Definition validateRange (p : HestiaParam) (candidate : string) : bool :=
  if String.eqb (type p) "string" then
    if (0 <=? minLen (validators p))%Z
       && (Z.of_nat (String.length candidate) <? minLen (validators p))%Z
    then false
    else if (0 <=? maxLen (validators p))%Z
            && (maxLen (validators p) <? Z.of_nat (String.length candidate))%Z
    then false
    else true
  else if String.eqb (type p) "number" then
    let v := toFloat candidate in
    if hasMin (validators p) && dlt v (min (validators p)) then false
    else if hasMax (validators p) && dlt (max (validators p)) v then false
    else true
  else true.

(** [HestiaParam::validate]. *)
Definition validate (p : HestiaParam) (candidate : string) : bool :=
  if required p && (String.length candidate =? 0)%nat then false
  else if negb (validatePattern p candidate) then false
  else validateRange p candidate.

(** [HestiaParam::validateValue]. *)
Definition validateValue (p : HestiaParam) : bool := validate p (_value p).

(** [HestiaParam::loadFromNVS], on the NVS namespace ["HConfig"]. *)
Definition loadFromNVS (lazyInit : bool) (p : HestiaParam)
    (nvs : gmap string string) : HestiaParam * gmap string string :=
  if negb (provisioning p) then (p, nvs)
  else
    let k := nvsKey (key p) in
    match nvs !! k with
    | Some stored => (set_value p stored, nvs)
    | None => if lazyInit then (p, <[k := _value p]> nvs) else (p, nvs)
    end.

(** [HestiaParam::saveToNVS]. *)
Definition saveToNVS (p : HestiaParam) (nvs : gmap string string)
    : gmap string string :=
  <[nvsKey (key p) := _value p]> nvs.

(** [HestiaConfig::getParamObj]: the first parameter with this key, if
    any. *)
Fixpoint getParamObj (params : list HestiaParam) (k : string)
    : option HestiaParam :=
  match params with
  | [] => None
  | p :: rest => if String.eqb (key p) k then Some p else getParamObj rest k
  end.

(** [HestiaConfig::getParam]. *)
Fixpoint getParam (params : list HestiaParam) (k : string) : string :=
  match params with
  | [] => ""
  | p :: rest => if String.eqb (key p) k then read p else getParam rest k
  end.

(** [HestiaConfig::setParam]: the result and the parameters. *)
Fixpoint setParam (params : list HestiaParam) (k v : string)
    : bool * list HestiaParam :=
  match params with
  | [] => (false, [])
  | p :: rest =>
      if String.eqb (key p) k
      then (fst (write v p), snd (write v p) :: rest)
      else let (r, rest') := setParam rest k v in (r, p :: rest')
  end.

(** [HestiaConfig::validateR2]. *)
Fixpoint validateR2 (params : list HestiaParam) : bool :=
  match params with
  | [] => true
  | p :: rest =>
      if critical p && negb (validateValue p) then false
      else validateR2 rest
  end.

End Params.

(** A host-name parameter, with no numeric bounds. *)
Definition no_bounds : @Validators Z :=
  {| minLen := 1; maxLen := 32; min := 0%Z; max := 0%Z;
     hasMin := false; hasMax := false |}.

Definition mqtt_ip_param : @HestiaParam Z :=
  {| key := "mqtt_ip"; type := "string"; label := "Broker";
     provisioning := true; required := true; critical := true;
     defaultValue := ""; _value := ""; decimals := 0;
     validators := no_bounds; pattern := "hostname" |}.

End Config.

(** * Properties of the entity bridge *)

Module BridgeProps.
Import WString Bridge.

(** ** Strings *)

Lemma isEmpty_true (s : string) : isEmpty s = true <-> s = "".
Proof. destruct s; simpl; split; congruence. Qed.

Lemma isEmpty_false (s : string) : isEmpty s = false <-> s <> "".
Proof. destruct s; simpl; split; congruence. Qed.

Lemma length_zero (s : string) : (String.length s =? 0)%nat = isEmpty s.
Proof. destruct s; reflexivity. Qed.

Lemma length_append (s t : string) :
  String.length (s ++ t) = String.length s + String.length t.
Proof. induction s as [|c s IH]; simpl; [reflexivity | now rewrite IH]. Qed.

Lemma length_substring_from (n : nat) (s : string) :
  String.length (substring_from n s) = String.length s - n.
Proof.
  revert s; induction n as [|n IH]; intros s.
  - simpl. lia.
  - destruct s as [|c r]; simpl; [reflexivity | apply IH].
Qed.

(** [substring_from n] drops a prefix of [n] characters. *)
Lemma substring_from_split (n : nat) (s : string) :
  n <= String.length s ->
  exists pre, s = pre ++ substring_from n s /\ String.length pre = n.
Proof.
  revert s; induction n as [|n IH]; intros s Hn.
  - exists "". split; reflexivity.
  - destruct s as [|c r]; simpl in Hn; [lia |].
    destruct (IH r) as [pre [Heq Hlen]]; [lia |].
    exists (String c pre). split.
    + change (String c r = String c (pre ++ substring_from n r)).
      f_equal. exact Heq.
    + simpl. now rewrite Hlen.
Qed.

Lemma ofInt_digit (d : Z) : (0 <= d < 10)%Z -> ofInt d = digit d.
Proof.
  intros Hd.
  assert (H : (d = 0 \/ d = 1 \/ d = 2 \/ d = 3 \/ d = 4 \/ d = 5 \/ d = 6
               \/ d = 7 \/ d = 8 \/ d = 9)%Z) by lia.
  repeat (destruct H as [-> | H]; [reflexivity |]). now subst d.
Qed.

Lemma length_digit (d : Z) : String.length (digit d) = 1.
Proof. reflexivity. Qed.

(** ** Entity kinds *)

Lemma TypeHA_eqb_eq (a b : TypeHA) : TypeHA_eqb a b = true <-> a = b.
Proof. destruct a, b; simpl; split; congruence. Qed.

Lemma TypeHA_eqb_neq (a b : TypeHA) : TypeHA_eqb a b = false <-> a <> b.
Proof. destruct a, b; simpl; split; congruence. Qed.

(** ** The persistence key *)

Lemma code_range (c : ascii) : (0 <= code c < 256)%Z.
Proof.
  unfold code. pose proof (N_ascii_bounded c) as Hc. lia.
Qed.

(** The 8-bit accumulator holds the sum of the codes modulo 256. *)
Lemma shortenKey_sum_charSum (s : string) (acc : Z) :
  (0 <= acc < 256)%Z ->
  shortenKey_sum s acc = ((acc + charSum s) mod 256)%Z.
Proof.
  revert acc; induction s as [|c r IH]; intros acc Hacc; simpl.
  - rewrite Z.add_0_r. symmetry. apply Z.mod_small. lia.
  - rewrite IH by (apply Z.mod_pos_bound; lia).
    rewrite Zplus_mod_idemp_l. f_equal. lia.
Qed.

Lemma length_shortenKey (full : string) :
  String.length (shortenKey full) <= 15.
Proof.
  unfold shortenKey.
  destruct (String.length full <=? 15)%nat eqn:Hlen.
  - apply Nat.leb_le in Hlen. exact Hlen.
  - apply Nat.leb_gt in Hlen.
    rewrite length_append, length_substring_from.
    rewrite ofInt_digit by (apply Z.mod_pos_bound; lia).
    rewrite length_digit. lia.
Qed.

Lemma constructed_construct (cfg : BridgeConfig) : constructed (construct cfg).
Proof. split; reflexivity. Qed.

Lemma constructed_set_values (b : HAIoTBridge) (v m : string) :
  constructed b -> constructed (set_values b v m).
Proof. intros H; exact H. Qed.

Lemma nvsKey_fits (b : HAIoTBridge) :
  constructed b -> (String.length (_nvsKey b) <=? 15)%nat = true.
Proof.
  intros [Hk _]. rewrite Hk. apply Nat.leb_le, length_shortenKey.
Qed.

(** No method touches the name, the resolution, the key or the
    precision. *)
Lemma constructed_write (v : string) (b : HAIoTBridge) (w : World) :
  constructed b -> constructed (fst (write v (b, w))).
Proof.
  intros H. unfold write.
  now destruct (TypeHA_eqb (_type (set_values b v v)) HA_CONTROL).
Qed.

Lemma constructed_onChange (b : HAIoTBridge) :
  constructed b -> constructed (snd (onChange b)).
Proof.
  intros H. unfold onChange.
  destruct (isEmpty (_value b)); [exact H |].
  destruct (TypeHA_eqb (_type b) HA_BUTTON); [exact H |].
  now destruct (String.eqb (_value b) (_valueMem b)).
Qed.

Lemma constructed_readMQTT (topic payload : string) (flushMode : bool)
    (b : HAIoTBridge) (w : World) :
  constructed b ->
  constructed (fst (snd (readMQTT topic payload flushMode (b, w)))).
Proof.
  intros H. unfold readMQTT.
  destruct (isEmpty (_topicFrom b) || TypeHA_eqb (_type b) HA_INDICATOR);
    [exact H |].
  destruct (flushMode && negb (TypeHA_eqb (_type b) HA_ENTITIES));
    [exact H |].
  now destruct (negb (String.eqb topic (_topicFrom b))).
Qed.

(** ** Inbound dispatch *)

Ltac bool_hyps :=
  repeat match goal with
  | H : (_ || _) = true |- _ => apply orb_true_iff in H
  | H : (_ || _) = false |- _ => apply orb_false_iff in H; destruct H
  | H : (_ && _) = true |- _ => apply andb_true_iff in H; destruct H
  | H : (_ && _) = false |- _ => apply andb_false_iff in H
  | H : negb _ = true |- _ => apply negb_true_iff in H
  | H : negb _ = false |- _ => apply negb_false_iff in H
  | H : isEmpty _ = true |- _ => apply isEmpty_true in H
  | H : isEmpty _ = false |- _ => apply isEmpty_false in H
  | H : TypeHA_eqb _ _ = true |- _ => apply TypeHA_eqb_eq in H
  | H : TypeHA_eqb _ _ = false |- _ => apply TypeHA_eqb_neq in H
  | H : String.eqb _ _ = true |- _ => apply String.eqb_eq in H
  | H : String.eqb _ _ = false |- _ => apply String.eqb_neq in H
  end.

(** [readMQTT] in one equation: the three refusals in the order of the
    code, then the update. *)
Lemma readMQTT_unfold (topic payload : string) (flushMode : bool)
    (b : HAIoTBridge) (w : World) :
  readMQTT topic payload flushMode (b, w) =
    if isEmpty (_topicFrom b) || TypeHA_eqb (_type b) HA_INDICATOR
    then (false, (b, w))
    else if flushMode && negb (TypeHA_eqb (_type b) HA_ENTITIES)
    then (false, (b, w))
    else if negb (String.eqb topic (_topicFrom b))
    then (false, (b, w))
    else (true, (set_values b payload (_valueMem b),
                 if TypeHA_eqb (_type b) HA_CONTROL
                 then saveAndPublish (set_values b payload (_valueMem b))
                                     payload w
                 else w)).
Proof. reflexivity. Qed.

Lemma nvs_publish (b : HAIoTBridge) (val : string) (w : World) :
  nvs (publish b val w) = nvs w.
Proof. unfold publish. now destruct (String.length (_topicTo b) =? 0)%nat. Qed.

(** A Control bridge that went through the constructor does write the
    value under its key. *)
Lemma nvs_saveAndPublish_control (b : HAIoTBridge) (val : string) (w : World) :
  constructed b -> _type b = HA_CONTROL ->
  nvs (saveAndPublish b val w) = <[_nvsKey b := val]> (nvs w).
Proof.
  intros Hc Ht. unfold saveAndPublish.
  rewrite (nvsKey_fits b Hc), Ht. simpl. now rewrite nvs_publish.
Qed.

(** C1. Inbound dispatch [readMQTT(topic, payload, flushMode)] returns false
    when the entity has no inbound topic, when it is an Indicator, when the
    topic differs from the inbound topic, and, in flush mode, for every kind
    but Internal ([HA_ENTITIES]). In every other case it returns true, the
    current value is the payload, the NVS entry of a Control is the payload
    and the NVS of any other kind is untouched. In particular a Control with
    an inbound topic refuses its own topic in flush mode and accepts the
    identical message outside of it. *)
Theorem readMQTT_dispatch (topic payload : string) (flushMode : bool)
    (b : HAIoTBridge) (w : World) :
  constructed b ->
  let refused :=
    _topicFrom b = "" \/ _type b = HA_INDICATOR \/ topic <> _topicFrom b
    \/ (flushMode = true /\ _type b <> HA_ENTITIES) in
  let r := readMQTT topic payload flushMode (b, w) in
  (refused -> fst r = false)
  /\ (~ refused ->
      fst r = true
      /\ _value (fst (snd r)) = payload
      /\ (_type b = HA_CONTROL ->
          nvs (snd (snd r)) = <[_nvsKey b := payload]> (nvs w))
      /\ (_type b <> HA_CONTROL -> snd (snd r) = w))
  /\ (_type b = HA_CONTROL -> _topicFrom b <> "" ->
      fst (readMQTT (_topicFrom b) payload true (b, w)) = false
      /\ fst (readMQTT (_topicFrom b) payload false (b, w)) = true).
Proof.
  intros Hc refused r. subst r. split; [| split].
  - intros Href. rewrite readMQTT_unfold.
    destruct (isEmpty (_topicFrom b) || TypeHA_eqb (_type b) HA_INDICATOR)
      eqn:E1; [reflexivity |].
    destruct (flushMode && negb (TypeHA_eqb (_type b) HA_ENTITIES))
      eqn:E2; [reflexivity |].
    destruct (negb (String.eqb topic (_topicFrom b))) eqn:E3; [reflexivity |].
    exfalso. bool_hyps.
    destruct Href as [R | [R | [R | [Rf Rt]]]]; try contradiction.
    subst flushMode. destruct E2 as [E2 | E2]; [discriminate |].
    bool_hyps. contradiction.
  - intros Href. rewrite readMQTT_unfold.
    destruct (isEmpty (_topicFrom b) || TypeHA_eqb (_type b) HA_INDICATOR)
      eqn:E1.
    { exfalso. apply Href. bool_hyps.
      destruct E1 as [E1 | E1]; bool_hyps; [now left | now right; left]. }
    destruct (flushMode && negb (TypeHA_eqb (_type b) HA_ENTITIES)) eqn:E2.
    { exfalso. apply Href. bool_hyps. right; right; right. now split. }
    destruct (negb (String.eqb topic (_topicFrom b))) eqn:E3.
    { exfalso. apply Href. bool_hyps. now right; right; left. }
    cbn [fst snd]. repeat split.
    + intros Ht. rewrite Ht. cbn [TypeHA_eqb].
      now rewrite nvs_saveAndPublish_control.
    + intros Ht. apply TypeHA_eqb_neq in Ht. now rewrite Ht.
  - intros Ht Hne. rewrite !readMQTT_unfold, Ht.
    apply isEmpty_false in Hne. rewrite Hne, String.eqb_refl.
    split; reflexivity.
Qed.

Lemma readMQTT_dispatch_witness :
  constructed setpoint
  /\ fst (readMQTT "Virgo/setpoint/fromHA" "21.50" true
                   (setpoint, emptyWorld)) = false
  /\ fst (readMQTT "Virgo/setpoint/fromHA" "21.50" false
                   (setpoint, emptyWorld)) = true.
Proof.
  split; [split; reflexivity |].
  destruct (readMQTT_dispatch "Virgo/setpoint/fromHA" "21.50" false
              setpoint emptyWorld) as (_ & _ & H).
  - split; reflexivity.
  - apply H; [reflexivity | discriminate].
Defined.

(** C10. A dispatch that returns false changes nothing: the bridge (current
    value, last-acknowledged value, initialized flag) and the world (the NVS
    entries, the calls made) are those before the call. *)
Theorem readMQTT_refused_frame (topic payload : string) (flushMode : bool)
    (b : HAIoTBridge) (w : World) :
  fst (readMQTT topic payload flushMode (b, w)) = false ->
  let st' := snd (readMQTT topic payload flushMode (b, w)) in
  st' = (b, w)
  /\ _value (fst st') = _value b
  /\ _valueMem (fst st') = _valueMem b
  /\ _initialized (fst st') = _initialized b
  /\ nvs (snd st') = nvs w
  /\ events (snd st') = events w.
Proof.
  intros Hr st'.
  assert (Hst : st' = (b, w)).
  { subst st'. revert Hr. rewrite readMQTT_unfold.
    destruct (isEmpty (_topicFrom b) || TypeHA_eqb (_type b) HA_INDICATOR);
      [reflexivity |].
    destruct (flushMode && negb (TypeHA_eqb (_type b) HA_ENTITIES));
      [reflexivity |].
    destruct (negb (String.eqb topic (_topicFrom b))); [reflexivity |].
    discriminate. }
  rewrite Hst. repeat split.
Qed.

Lemma readMQTT_refused_frame_witness :
  fst (readMQTT "Virgo/setpoint/fromHA" "21.50" true
                (setpoint, emptyWorld)) = false
  /\ snd (readMQTT "Virgo/setpoint/fromHA" "21.50" true
                   (setpoint, emptyWorld)) = (setpoint, emptyWorld).
Proof.
  split; [reflexivity |].
  apply (readMQTT_refused_frame "Virgo/setpoint/fromHA" "21.50" true
           setpoint emptyWorld).
  reflexivity.
Defined.

(** ** Device-originated writes *)

(** [write] stores its argument as it is, as current and as last value. *)
Lemma write_stores (v : string) (b : HAIoTBridge) (w : World) :
  fst (write v (b, w)) = set_values b v v.
Proof.
  unfold write. now destruct (TypeHA_eqb (_type (set_values b v v)) HA_CONTROL).
Qed.

(** A Control persists, then publishes (when it has an outbound topic). *)
Lemma write_control_events (v : string) (b : HAIoTBridge) (w : World) :
  constructed b -> _type b = HA_CONTROL ->
  nvs (snd (write v (b, w))) = <[_nvsKey b := v]> (nvs w)
  /\ events (snd (write v (b, w))) =
       (events w ++ [NvsPut (_nvsKey b) v]
        ++ if isEmpty (_topicTo b) then []
           else [MqttPublish (_topicTo b) v (_logWrites b)])%list.
Proof.
  intros Hc Ht. unfold write. cbn [set_values _type]. rewrite Ht.
  cbn [TypeHA_eqb snd]. split.
  - now rewrite (nvs_saveAndPublish_control (set_values b v v)).
  - unfold saveAndPublish. cbn [set_values _type _nvsKey _value].
    rewrite (nvsKey_fits b Hc), Ht. cbn [TypeHA_eqb andb].
    unfold publish. cbn [set_values _topicTo _logWrites]. rewrite length_zero.
    destruct (isEmpty (_topicTo b)); cbn [putString emit events];
      [reflexivity | now rewrite <- app_assoc].
Qed.

(** Any other kind only publishes. *)
Lemma write_other_events (v : string) (b : HAIoTBridge) (w : World) :
  _type b <> HA_CONTROL ->
  nvs (snd (write v (b, w))) = nvs w
  /\ events (snd (write v (b, w))) =
       (events w ++ if isEmpty (_topicTo b) then []
                    else [MqttPublish (_topicTo b) v (_logWrites b)])%list.
Proof.
  intros Ht. apply TypeHA_eqb_neq in Ht. unfold write.
  cbn [set_values _type]. rewrite Ht. cbn [snd]. split.
  - apply nvs_publish.
  - unfold publish. cbn [set_values _topicTo _logWrites _value].
    rewrite length_zero.
    destruct (isEmpty (_topicTo b)); cbn [emit events];
      [now rewrite app_nil_r | reflexivity].
Qed.

(** The restore path does normalise: a float-like value found in NVS is
    rendered with the precision of the entity. *)
Lemma init_normalizes (renderFloat : string -> Z -> string)
    (b : HAIoTBridge) (w : World) (val : string) :
  _type b = HA_CONTROL ->
  nvs w !! _nvsKey b = Some val ->
  isFloatLike val = true ->
  _value (fst (init renderFloat (b, w))) = renderFloat val (_decimals b).
Proof.
  intros Ht Hval Hfl. unfold init, getString, normalize.
  rewrite Ht, Hval. cbn [TypeHA_eqb default from_option id].
  assert (Hne : isEmpty val = false).
  { destruct val; [discriminate | reflexivity]. }
  rewrite Hne, Hfl. reflexivity.
Qed.

(** C2. [write] does not normalise: on a Control with resolution ["0.01"]
    (two decimals), the float-like text ["3.14159"] is stored, persisted and
    published with its five decimals. *)
Theorem write_keeps_input_digits :
  isFloatLike "3.14159" = true
  /\ _decimals setpoint = 2%Z
  /\ _value (fst (write "3.14159" (setpoint, emptyWorld))) = "3.14159"
  /\ fractionDigits (_value (fst (write "3.14159" (setpoint, emptyWorld))))
     = Some 5
  /\ events (snd (write "3.14159" (setpoint, emptyWorld)))
     = [NvsPut "ridge_setpoint8" "3.14159";
        MqttPublish "Virgo/setpoint/toHA" "3.14159" true].
Proof. repeat split. Qed.

(** ** Change detection *)

Lemma onChange_empty (b : HAIoTBridge) :
  _value b = "" -> onChange b = (false, b).
Proof. intros H. unfold onChange. now rewrite H. Qed.

(** Once the value is empty, every further call returns false. *)
Lemma onChange_repeat_empty (n : nat) (b : HAIoTBridge) :
  _value b = "" -> onChange_repeat n b = (repeat false n, b).
Proof.
  intros H. induction n as [|n IH]; [reflexivity |].
  cbn [onChange_repeat]. rewrite (onChange_empty b H), IH. reflexivity.
Qed.

(** C3. On a Trigger ([HA_BUTTON]), after one [write] of a non-empty value,
    successive calls of [onChange] return true on the first call and false
    on every later one: the first call clears the value. *)
Theorem trigger_fires_once (v : string) (b : HAIoTBridge) (w : World)
    (n : nat) :
  _type b = HA_BUTTON ->
  v <> "" ->
  fst (onChange_repeat (S n) (fst (write v (b, w)))) = true :: repeat false n
  /\ _value (snd (onChange (fst (write v (b, w))))) = "".
Proof.
  intros Ht Hv. rewrite write_stores.
  assert (Hfirst : onChange (set_values b v v)
                   = (true, set_values (set_values b v v) "" "")).
  { unfold onChange. cbn [set_values _value _type].
    apply isEmpty_false in Hv. rewrite Hv, Ht. reflexivity. }
  cbn [onChange_repeat]. rewrite Hfirst.
  rewrite onChange_repeat_empty by reflexivity.
  split; reflexivity.
Qed.

Lemma trigger_fires_once_witness :
  _type ota = HA_BUTTON
  /\ "PRESS" <> ""
  /\ fst (onChange_repeat 4 (fst (write "PRESS" (ota, emptyWorld))))
     = [true; false; false; false].
Proof.
  split; [reflexivity |]. split; [discriminate |].
  apply (trigger_fires_once "PRESS" ota emptyWorld 3);
    [reflexivity | discriminate].
Defined.

(** C9, as the code has it. On every kind but Trigger, [onChange] returns
    true exactly when the current value is not empty and differs from the
    last-acknowledged value; it then sets the acknowledged value to the
    current one, so that the next call returns false; when it returns false
    the bridge is unchanged. *)
Theorem onChange_non_trigger (b : HAIoTBridge) :
  _type b <> HA_BUTTON ->
  (fst (onChange b) = true <-> _value b <> "" /\ _value b <> _valueMem b)
  /\ (fst (onChange b) = true ->
      _valueMem (snd (onChange b)) = _value b
      /\ _value (snd (onChange b)) = _value b
      /\ fst (onChange (snd (onChange b))) = false)
  /\ (fst (onChange b) = false -> snd (onChange b) = b).
Proof.
  intros Ht. apply TypeHA_eqb_neq in Ht.
  assert (Hsecond : forall v, v <> "" ->
            fst (onChange (set_values b v v)) = false).
  { intros v Hv. unfold onChange. cbn [set_values _value _valueMem _type].
    apply isEmpty_false in Hv. rewrite Hv, Ht, String.eqb_refl. reflexivity. }
  unfold onChange in *.
  destruct (isEmpty (_value b)) eqn:E1.
  { bool_hyps. cbn [fst snd].
    intuition (try discriminate; try congruence). }
  rewrite Ht.
  destruct (String.eqb (_value b) (_valueMem b)) eqn:E2; cbn [fst snd];
    bool_hyps.
  { intuition (try discriminate; try congruence). }
  cbn [set_values _value _valueMem].
  specialize (Hsecond (_value b) E1).
  intuition (try discriminate; try congruence).
Qed.

Lemma onChange_non_trigger_witness :
  _type ha_online_cleared <> HA_BUTTON
  /\ (fst (onChange ha_online_cleared) = true
      <-> _value ha_online_cleared <> ""
          /\ _value ha_online_cleared <> _valueMem ha_online_cleared).
Proof.
  split; [discriminate |].
  apply (onChange_non_trigger ha_online_cleared). discriminate.
Defined.

(** C9 as stated fails: after an empty payload the current value (empty)
    differs from the acknowledged one (["true"]), and [onChange] returns
    false. *)
Lemma onChange_ignores_empty_value :
  _type ha_online_cleared <> HA_BUTTON
  /\ _value ha_online_cleared <> _valueMem ha_online_cleared
  /\ fst (onChange ha_online_cleared) = false.
Proof. repeat split; discriminate. Qed.

(** ** The persistence key *)

(** C8, as the code has it. For an identifier of more than 15 characters,
    the key is the last 14 characters followed by one digit: the sum of the
    character codes, reduced modulo 256 (the accumulator is 8 bits wide) and
    then modulo 10. The key has 15 characters, and the same identifier gives
    the same key. *)
Theorem shortenKey_long (full : string) :
  15 < String.length full ->
  (exists pre tail,
     full = pre ++ tail
     /\ String.length tail = 14
     /\ shortenKey full = tail ++ digit ((charSum full mod 256) mod 10))
  /\ String.length (shortenKey full) = 15
  /\ (forall full', full' = full -> shortenKey full' = shortenKey full).
Proof.
  intros Hlen.
  assert (Hkey : shortenKey full
                 = substring_from (String.length full - 14) full
                   ++ digit ((charSum full mod 256) mod 10)).
  { unfold shortenKey.
    destruct (String.length full <=? 15)%nat eqn:E;
      [apply Nat.leb_le in E; lia |].
    rewrite shortenKey_sum_charSum by lia. rewrite Z.add_0_l.
    now rewrite ofInt_digit by (apply Z.mod_pos_bound; lia). }
  split; [| split].
  - destruct (substring_from_split (String.length full - 14) full)
      as [pre [Heq Hpre]]; [lia |].
    exists pre, (substring_from (String.length full - 14) full).
    split; [exact Heq |]. split; [| exact Hkey].
    rewrite length_substring_from. lia.
  - rewrite Hkey, length_append, length_substring_from, length_digit. lia.
  - now intros full' ->.
Qed.

Lemma shortenKey_long_witness :
  15 < String.length "IotBridge_HA_online"
  /\ String.length (shortenKey "IotBridge_HA_online") = 15.
Proof.
  split; [vm_compute; lia |].
  apply (shortenKey_long "IotBridge_HA_online"). vm_compute; lia.
Defined.

(** C8 as stated fails: the codes of ["IotBridge_HA_online"] add up to
    1861, the 8-bit accumulator holds 69, and the key ends in 9, not 1. *)
Lemma shortenKey_checksum_wraps :
  charSum "IotBridge_HA_online" = 1861%Z
  /\ shortenKey "IotBridge_HA_online" = "idge_HA_online9"
  /\ shortenKey_spec "IotBridge_HA_online" = "idge_HA_online1"
  /\ shortenKey "IotBridge_HA_online" <> shortenKey_spec "IotBridge_HA_online".
Proof. repeat split. discriminate. Qed.

End BridgeProps.

(** * Properties of the network guards *)

Module NetProps.
Import Net.
Local Open Scope Z_scope.

(** ** Machine arithmetic *)

Lemma wrap32_small (z : Z) : 0 <= z < 2 ^ 32 -> wrap32 z = z.
Proof. intros H. unfold wrap32. now apply Z.mod_small. Qed.

Lemma random_0_50 (raw : Z) : 0 <= random 0 50 raw < 50.
Proof.
  unfold random. cbn [Z.leb Z.compare]. rewrite Z.sub_0_r, Z.add_0_r.
  apply Z.mod_pos_bound. lia.
Qed.

(** The time measured between two readings of [millis] never exceeds the
    time that passed. *)
Lemma sub32_millis_le (t1 t2 : Z) :
  t1 <= t2 -> sub32 (millis t2) (millis t1) <= t2 - t1.
Proof.
  intros H. unfold sub32, millis, wrap32.
  rewrite <- Zminus_mod. apply Z.mod_le; lia.
Qed.

Lemma incr8_range (n : Z) : 0 <= incr8 n < 256.
Proof. unfold incr8. apply Z.mod_pos_bound. lia. Qed.

(** ** Backoff *)

Lemma shiftl_100 (n : Z) :
  0 <= n <= 5 -> wrap32 (Z.shiftl 100 n) = 100 * 2 ^ n /\ 100 * 2 ^ n <= 3200.
Proof.
  intros H.
  assert (Hn : n = 0 \/ n = 1 \/ n = 2 \/ n = 3 \/ n = 4 \/ n = 5) by lia.
  repeat (destruct Hn as [-> | Hn]; [split; [reflexivity | lia] |]).
  subst n. split; [reflexivity | lia].
Qed.

Lemma wifiBackoff_low (n raw : Z) :
  0 <= n <= 5 -> 100 * 2 ^ n <= wifiBackoff n raw < 100 * 2 ^ n + 50.
Proof.
  intros H. unfold wifiBackoff.
  destruct (Z.leb_spec n 5) as [_ | Hgt]; [| lia].
  destruct (shiftl_100 n H) as [-> Hle].
  pose proof (random_0_50 raw) as Hr.
  rewrite wrap32_small; lia.
Qed.

Lemma wifiBackoff_high (n raw : Z) : 5 < n -> wifiBackoff n raw = 10000.
Proof.
  intros H. unfold wifiBackoff. destruct (Z.leb_spec n 5); [lia | reflexivity].
Qed.

Lemma mqttBackoff_low (n raw : Z) :
  0 <= n <= 5 -> 100 * 2 ^ n <= mqttBackoff n raw < 100 * 2 ^ n + 50.
Proof.
  intros H. unfold mqttBackoff.
  destruct (Z.leb_spec n 5) as [_ | Hgt]; [| lia].
  destruct (shiftl_100 n H) as [-> Hle].
  pose proof (random_0_50 raw) as Hr.
  rewrite wrap32_small; lia.
Qed.

Lemma mqttBackoff_high (n raw : Z) : 5 < n -> mqttBackoff n raw = 10000.
Proof.
  intros H. unfold mqttBackoff. destruct (Z.leb_spec n 5); [lia | reflexivity].
Qed.

(** The Wi-Fi guard stores the backoff of the attempt count it has just
    incremented. *)
Lemma wifi_attach_delayNext (s : WiFiGuard) (e : WiFiPoll) :
  delayNext (fst (wifi_attach s e))
  = wifiBackoff (tryCount (fst (wifi_attach s e))) (raw_random e)
  /\ tryCount (fst (wifi_attach s e)) = incr8 (tryCount s).
Proof. split; reflexivity. Qed.


(** ** Link guard *)

Ltac wifi_unfold :=
  unfold attaches, wifi_events, wifi_next, wifi_result,
    tryWiFiConnectNonBlocking, tryWiFiConnectNonBlocking_V2, wifi_scan,
    wifi_attach;
  cbn [lastAttempt lastReset tryCount delayNext connecting ssidVisible
       lastScan st cfgwifi_ssid cfgwifi_pass cfgdevice_id scanned t_cooldown
       t_scanGate t_scanDone t_inflight t_backoff t_resetGate t_resetDone
       t_attempt raw_random].

Ltac wifi_simpl :=
  cbn [negb andb orb fst snd app existsb is_begin lastAttempt lastReset
       tryCount delayNext connecting ssidVisible lastScan] in *.

(** One call either issues an attach call, and then both gates were open
    and the attempt is stamped and marked in flight; or it issues none, and
    then the stamp is kept, and the in-flight mark and the delay change only
    when the link is seen attached. *)
Lemma wifi_step (s : WiFiGuard) (e : WiFiPoll) :
  (attaches s e = true
   /\ (connecting s = true ->
       8000 <= sub32 (millis (t_inflight e)) (lastAttempt s))
   /\ delayNext s <= sub32 (millis (t_backoff e)) (lastAttempt s)
   /\ lastAttempt (wifi_next s e) = millis (t_attempt e)
   /\ connecting (wifi_next s e) = true
   /\ delayNext (wifi_next s e)
      = wifiBackoff (tryCount (wifi_next s e)) (raw_random e)
   /\ 0 <= tryCount (wifi_next s e) < 256)
  \/ (attaches s e = false
      /\ lastAttempt (wifi_next s e) = lastAttempt s
      /\ connecting (wifi_next s e)
         = (connecting s && negb (is_connected (st e)))%bool
      /\ delayNext (wifi_next s e)
         = if is_connected (st e) then 100 else delayNext s).
Proof.
  destruct s as [la lr tc dn cn sv ls].
  destruct e as [ssid pass id stat nets t1 t2 t3 t4 t5 t6 t7 t8 raw].
  wifi_unfold.
  destruct (is_connected stat).
  { right. wifi_simpl. rewrite andb_false_r. repeat split. }
  destruct (negb sv && (sub32 (millis t1) ls <? 30000))%bool.
  { right. wifi_simpl. rewrite andb_true_r. repeat split. }
  destruct ((5 <=? tc) && (30000 <? sub32 (millis t2) ls))%bool;
    [destruct (ssid_found ssid nets) |]; wifi_simpl;
    try (right; rewrite ?andb_true_r; repeat split; fail);
    (destruct cn; wifi_simpl;
     [destruct (Z.ltb_spec (sub32 (millis t4) la) 8000); wifi_simpl;
      [right; repeat split |] |];
     (destruct (Z.ltb_spec (sub32 (millis t5) la) dn); wifi_simpl;
      [right; rewrite ?andb_true_r; repeat split |];
      left;
      destruct (5000 <? sub32 (millis t6) lr); wifi_simpl;
      repeat split; try assumption; try discriminate;
      try apply incr8_range; try (intros; assumption); try lia)).
Qed.

(** Calls that issue no attach call keep the stamp of the last attempt;
    the attempt stays in flight, and the delay stays as computed, until the
    link is seen attached. *)
Lemma wifi_run_quiet (es : list WiFiPoll) (s : WiFiGuard) :
  wifi_run_attaches s es = false ->
  lastAttempt (wifi_run s es) = lastAttempt s
  /\ connecting (wifi_run s es)
     = (connecting s && negb (sees_connected es))%bool
  /\ delayNext (wifi_run s es)
     = if sees_connected es then 100 else delayNext s.
Proof.
  revert s; induction es as [|e es IH]; intros s Hq.
  - cbn. rewrite andb_true_r. repeat split.
  - cbn [wifi_run_attaches] in Hq. apply orb_false_iff in Hq.
    destruct Hq as [Hhead Hrest].
    destruct (wifi_step s e) as [(Ha & _) | (_ & Hla & Hcn & Hdn)];
      [congruence |].
    destruct (IH (wifi_next s e) Hrest) as (IHla & IHcn & IHdn).
    cbn [wifi_run]. unfold sees_connected in *. cbn [existsb].
    rewrite IHla, IHcn, IHdn, Hla, Hcn, Hdn.
    destruct (is_connected (st e)), (existsb _ es), (connecting s);
      repeat split.
Qed.

(** C5. Take two attach calls of the Wi-Fi guard with none between them,
    whatever calls were made in between. The second is issued no sooner than
    the current backoff delay (at least 100 ms) after the stamp of the
    first, and, when the link was not seen attached in between (the first
    attempt is still in flight), no sooner than 8000 ms after it. Times are
    real times in milliseconds; 8 time-units of the specification are the
    code's 8000 ms. *)
Theorem attach_spacing (s : WiFiGuard) (e1 : WiFiPoll) (es : list WiFiPoll)
    (e2 : WiFiPoll) :
  attaches s e1 = true ->
  wifi_run_attaches (wifi_next s e1) es = false ->
  attaches (wifi_run (wifi_next s e1) es) e2 = true ->
  t_attempt e1 <= t_inflight e2 <= t_backoff e2 ->
  let s2 := wifi_run (wifi_next s e1) es in
  delayNext s2 <= t_backoff e2 - t_attempt e1
  /\ 100 <= delayNext s2
  /\ delayNext s2
     = (if sees_connected es then 100 else delayNext (wifi_next s e1))
  /\ (sees_connected es = false -> 8000 <= t_inflight e2 - t_attempt e1).
Proof.
  intros H1 Hquiet H2 Hclock s2.
  destruct (wifi_step s e1)
    as [(_ & _ & _ & Hstamp & Hfly & Hdelay & Hcount) | (Hno & _)];
    [| congruence].
  destruct (wifi_run_quiet es _ Hquiet) as (Hla & Hcn & Hdn).
  fold s2 in Hla, Hcn, Hdn.
  destruct (wifi_step s2 e2) as [(_ & Hgate8 & Hgate & _) | (Hno & _)];
    [| subst s2; congruence].
  rewrite Hla, Hstamp in Hgate, Hgate8.
  pose proof (sub32_millis_le (t_attempt e1) (t_backoff e2)) as Hb.
  pose proof (sub32_millis_le (t_attempt e1) (t_inflight e2)) as Hi.
  assert (Hmin : 100 <= delayNext (wifi_next s e1)).
  { rewrite Hdelay. set (n := tryCount (wifi_next s e1)) in *.
    destruct (Z_le_gt_dec n 5) as [Hle | Hgt].
    - pose proof (wifiBackoff_low n (raw_random e1)) as Hlow.
      assert (0 < 2 ^ n) by (apply Z.pow_pos_nonneg; lia). lia.
    - rewrite wifiBackoff_high by lia. lia. }
  repeat split.
  - lia.
  - rewrite Hdn. destruct (sees_connected es); lia.
  - exact Hdn.
  - intros Hnc. rewrite Hnc, Hfly in Hcn. cbn in Hcn.
    specialize (Hgate8 Hcn). lia.
Qed.

Lemma attach_spacing_witness :
  let e1 := poll_at WL_DISCONNECTED 1000 in
  let es := [poll_at WL_DISCONNECTED 2000; poll_at WL_IDLE_STATUS 4000] in
  let e2 := poll_at WL_DISCONNECTED 9100 in
  attaches WiFiGuard_boot e1 = true
  /\ wifi_run_attaches (wifi_next WiFiGuard_boot e1) es = false
  /\ attaches (wifi_run (wifi_next WiFiGuard_boot e1) es) e2 = true
  /\ t_attempt e1 <= t_inflight e2 <= t_backoff e2
  /\ 8000 <= t_inflight e2 - t_attempt e1.
Proof.
  intros e1 es e2.
  assert (H1 : attaches WiFiGuard_boot e1 = true) by (vm_compute; reflexivity).
  assert (Hq : wifi_run_attaches (wifi_next WiFiGuard_boot e1) es = false)
    by (vm_compute; reflexivity).
  assert (H2 : attaches (wifi_run (wifi_next WiFiGuard_boot e1) es) e2 = true)
    by (vm_compute; reflexivity).
  assert (Hc : t_attempt e1 <= t_inflight e2 <= t_backoff e2)
    by (vm_compute; split; discriminate).
  repeat (split; [assumption |]).
  apply (attach_spacing WiFiGuard_boot e1 es e2 H1 Hq H2 Hc).
  reflexivity.
Defined.

(** Once the link has been seen attached, the attempt is no longer in
    flight and the delay is back to 100 ms: a new attach call can follow the
    previous one by little more than that. *)
Example attach_after_link_loss :
  let e1 := poll_at WL_DISCONNECTED 1000 in
  let es := [poll_at WL_CONNECTED 1050] in
  let e2 := poll_at WL_CONNECTION_LOST 1110 in
  attaches WiFiGuard_boot e1 = true
  /\ wifi_run_attaches (wifi_next WiFiGuard_boot e1) es = false
  /\ attaches (wifi_run (wifi_next WiFiGuard_boot e1) es) e2 = true
  /\ t_backoff e2 - t_attempt e1 = 106.
Proof. repeat split. Qed.

(** While the attempt is in flight, calls made before 8000 ms have passed
    issue no attach call, however many they are. *)
Example no_attach_while_in_flight :
  wifi_run_attaches (wifi_next WiFiGuard_boot (poll_at WL_DISCONNECTED 1000))
    (map (poll_at WL_DISCONNECTED) [1010; 1500; 3000; 6000; 8900; 9000])
  = false.
Proof. reflexivity. Qed.

(** ** Backoff of the two guards *)






(** ** Session guard *)

(** C6. On the call whose session attach attempt succeeds, the MQTT guard
    returns false, with the attempt counter back to 0 and the backoff back
    to 100; the next call, with link and session up, is the first to return
    true, and it changes nothing more. *)
Theorem session_attach_surfaces_next (s : MQTTGuard) (e e' : MQTTPoll) :
  existsb is_connect (mqtt_events s e) = true ->
  connect_ok e = true ->
  is_connected (wifi_status e') = true ->
  client_connected e' = true ->
  mqtt_result s e = false
  /\ mqtt_tryCount (mqtt_next s e) = 0
  /\ nextDelay (mqtt_next s e) = 100
  /\ wasConnected (mqtt_next s e) = true
  /\ mqtt_result (mqtt_next s e) e' = true
  /\ mqtt_next (mqtt_next s e) e' = mqtt_next s e
  /\ mqtt_events (mqtt_next s e) e' = [].
Proof.
  destruct s as [ini was la tc nd].
  destruct e as [ws ip port id user pass cc ok tg ts raw].
  destruct e' as [ws' ip' port' id' user' pass' cc' ok' tg' ts' raw'].
  unfold mqtt_result, mqtt_events, mqtt_next, tryMQTTConnectNonBlocking,
    mqtt_setup.
  cbn [connect_ok wifi_status client_connected initialized wasConnected
       mqtt_lastAttempt mqtt_tryCount nextDelay t_gate t_stamp
       mqtt_raw_random].
  intros Hev -> -> ->.
  destruct (is_connected ws), ini, cc, was;
    cbn [negb fst snd existsb is_connect orb app initialized wasConnected
         mqtt_lastAttempt mqtt_tryCount nextDelay] in *;
    try discriminate;
    destruct (sub32 (millis tg) la <? nd);
    cbn [negb fst snd existsb is_connect orb app initialized wasConnected
         mqtt_lastAttempt mqtt_tryCount nextDelay] in *;
    try discriminate; repeat split.
Qed.

Lemma session_attach_surfaces_next_witness :
  let e := {| wifi_status := WL_CONNECTED; cfgmqtt_ip := "192.168.1.10";
              cfgmqtt_port := 1883; mqtt_device_id := "Virgo";
              cfgmqtt_user := "hestia"; cfgmqtt_pass := "secret";
              client_connected := false; connect_ok := true;
              t_gate := 150; t_stamp := 151; mqtt_raw_random := 7 |} in
  let e' := {| wifi_status := WL_CONNECTED; cfgmqtt_ip := "192.168.1.10";
               cfgmqtt_port := 1883; mqtt_device_id := "Virgo";
               cfgmqtt_user := "hestia"; cfgmqtt_pass := "secret";
               client_connected := true; connect_ok := true;
               t_gate := 160; t_stamp := 160; mqtt_raw_random := 8 |} in
  existsb is_connect (mqtt_events MQTTGuard_boot e) = true
  /\ mqtt_result MQTTGuard_boot e = false
  /\ mqtt_result (mqtt_next MQTTGuard_boot e) e' = true.
Proof.
  intros e e'. split; [reflexivity |].
  destruct (session_attach_surfaces_next MQTTGuard_boot e e')
    as (H1 & _ & _ & _ & H2 & _); try reflexivity.
  split; [exact H1 | exact H2].
Defined.

(** ** Discovery publisher *)

Lemma structure_ok_iff (doc : JsonValue) :
  structure_ok doc = true <-> well_structured doc.
Proof.
  unfold structure_ok, well_structured, containsKey, get. split.
  - destruct doc as [| | | | |ms]; cbn [negb orb]; try discriminate.
    destruct (member "device" ms) as [[| | | | |dev]|] eqn:Ed;
      cbn [default isJsonObject negb orb]; try discriminate.
    destruct (member "cmps" ms) as [[| | | | |cmps]|] eqn:Ec;
      cbn [default isJsonObject negb orb objectSize]; try discriminate.
    destruct cmps as [|c cmps]; cbn [length Nat.eqb]; [discriminate |].
    intros _. exists ms, dev, (c :: cmps).
    split; [reflexivity |]. split; [exact Ed |]. split; [exact Ec |].
    discriminate.
  - intros (ms & dev & cmps & -> & Hd & Hc & Hne).
    rewrite Hd, Hc. cbn [default isJsonObject negb orb objectSize].
    destruct cmps; [contradiction | reflexivity].
Qed.

(** The publisher on the sample payloads. *)
Example discovery_sample :
  MQTTDiscovery sample_parser true (Some sample_payload) "Virgo"
  = [ClientPublish "homeassistant/device/Virgo/config" sample_payload true 1]
  /\ MQTTDiscovery sample_parser false (Some sample_payload) "Virgo" = []
  /\ MQTTDiscovery sample_parser true None "Virgo" = []
  /\ MQTTDiscovery sample_parser true (Some "{") "Virgo" = []
  /\ MQTTDiscovery sample_parser true (Some empty_cmps_payload) "Virgo" = [].
Proof. repeat split. Qed.

Section DiscoveryProps.

Variable deserializeJson : string -> option JsonValue.

Lemma MQTTDiscovery_unfold (connected : bool) (json : option string)
    (device_id : string) :
  MQTTDiscovery deserializeJson connected json device_id =
    if connected then
      match json with
      | None => []
      | Some payload =>
          match deserializeJson payload with
          | None => []
          | Some doc =>
              if structure_ok doc
              then [ClientPublish (discovery_topic device_id) payload true 1]
              else []
          end
      end
    else [].
Proof.
  unfold MQTTDiscovery, structure_ok, discovery_topic.
  destruct connected; [| reflexivity].
  destruct json as [payload|]; [| reflexivity].
  destruct (deserializeJson payload) as [doc|]; [| reflexivity].
  cbn [negb].
  destruct (negb (containsKey doc "device")
            || negb (isJsonObject (get doc "device"))); [reflexivity |].
  destruct (negb (containsKey doc "cmps")
            || negb (isJsonObject (get doc "cmps"))); [reflexivity |].
  destruct (objectSize (get doc "cmps") =? 0)%nat; reflexivity.
Qed.

(** C7. [MQTTDiscovery] publishes exactly when the session is attached, a
    payload has been supplied, the payload parses, and the document has a
    device object and a non-empty component object. It then makes one call:
    the payload, retained, at QoS 1. In every other case it makes no call on
    the client. *)
Theorem discovery_publish_iff (connected : bool) (json : option string)
    (device_id : string) :
  let calls := MQTTDiscovery deserializeJson connected json device_id in
  let accepted (payload : string) :=
    connected = true
    /\ json = Some payload
    /\ exists doc, deserializeJson payload = Some doc /\ well_structured doc in
  (forall payload,
     accepted payload <->
     json = Some payload
     /\ calls = [ClientPublish (discovery_topic device_id) payload true 1])
  /\ ((forall payload, ~ accepted payload) -> calls = []).
Proof.
  intros calls accepted. subst calls accepted. cbv beta.
  rewrite MQTTDiscovery_unfold. split.
  - intros payload. split.
    + intros (-> & -> & doc & -> & Hdoc).
      apply structure_ok_iff in Hdoc. rewrite Hdoc. split; reflexivity.
    + intros [-> Hcalls].
      destruct connected; [| discriminate].
      destruct (deserializeJson payload) as [doc|] eqn:Ep; [| discriminate].
      destruct (structure_ok doc) eqn:Es; [| discriminate].
      repeat split. exists doc. split; [reflexivity |].
      now apply structure_ok_iff.
  - intros Hno.
    destruct connected; [| reflexivity].
    destruct json as [payload|]; [| reflexivity].
    destruct (deserializeJson payload) as [doc|] eqn:Ep; [| reflexivity].
    destruct (structure_ok doc) eqn:Es; [| reflexivity].
    exfalso. apply (Hno payload). repeat split.
    exists doc. split; [exact Ep |]. now apply structure_ok_iff.
Qed.

End DiscoveryProps.

End NetProps.

(** * Further properties of the entity bridge *)

Module BridgeExtra.
Import WString Bridge BridgeProps.

(** ** The float test *)

Lemma isDigit_code (c : ascii) :
  ((code c <? code "0") || (code "9" <? code c))%Z = negb (isDigit c).
Proof.
  unfold isDigit. change (code "0") with 48%Z. change (code "9") with 57%Z.
  destruct (Z.ltb_spec (code c) 48), (Z.ltb_spec 57 (code c)),
    (Z.leb_spec 48 (code c)), (Z.leb_spec (code c) 57); try lia; reflexivity.
Qed.

Lemma point_not_digit (c : ascii) : isPoint c = true -> isDigit c = false.
Proof.
  unfold isPoint. intros H. apply Ascii.eqb_eq in H. now subst c.
Qed.

(** Past the first position, the loop accepts exactly the strings of digits
    and points that bring the number of points to at most one and the
    number of digits to at least one. *)
Lemma isFloatLike_loop_tail (s : string) (i : nat)
    (pointSeen signSeen digitSeen : bool) :
  i <> 0 ->
  isFloatLike_loop s i pointSeen signSeen digitSeen = true <->
  forallChars (fun c => isDigit c || isPoint c) s = true
  /\ countChars isPoint s + (if pointSeen then 1 else 0) <= 1
  /\ (digitSeen = true \/ 1 <= countChars isDigit s).
Proof.
  revert i pointSeen signSeen digitSeen.
  induction s as [|c r IH]; intros i p sg d Hi.
  - cbn. destruct p, d; intuition (try discriminate; try lia).
  - cbn [isFloatLike_loop forallChars countChars].
    assert (Hi0 : Nat.eqb i 0 = false) by now apply Nat.eqb_neq.
    rewrite Hi0, andb_false_r. cbn [andb]. fold (isPoint c).
    rewrite isDigit_code.
    destruct (isPoint c) eqn:Ep.
    + rewrite (point_not_digit c Ep). cbn [orb andb].
      destruct p.
      * split; [discriminate | intros (_ & H & _); lia].
      * rewrite (IH (S i) true sg d) by lia. cbn [Nat.add].
        intuition lia.
    + destruct (isDigit c) eqn:Ed; cbn [negb orb andb].
      * rewrite (IH (S i) p sg true) by lia. cbn [Nat.add].
        intuition lia.
      * split; [discriminate | intros (H & _); discriminate].
Qed.

(** X1. [isFloatLike] accepts exactly the texts made of an optional leading
    minus sign followed by digits with at most one decimal point among them
    and at least one digit: no exponent, no plus sign, no white space. *)
Theorem isFloatLike_shape (s : string) :
  isFloatLike s = true <-> float_shape s.
Proof.
  unfold isFloatLike, float_shape.
  destruct s as [|c r].
  - cbn. split; [discriminate | intros (_ & _ & H); lia].
  - cbn [isEmpty isFloatLike_loop Nat.eqb negb andb].
    rewrite andb_true_r.
    destruct (Ascii.eqb c "-") eqn:Em.
    + apply Ascii.eqb_eq in Em. subst c. cbn [unsigned_part].
      rewrite (isFloatLike_loop_tail r 1 false true false) by lia.
      intuition (try discriminate; try lia).
    + assert (Hbody : unsigned_part (String c r) = String c r).
      { apply Ascii.eqb_neq in Em.
        destruct c as [[] [] [] [] [] [] [] []]; try reflexivity.
        now contradiction Em. }
      rewrite Hbody. cbn [forallChars countChars]. fold (isPoint c).
      rewrite isDigit_code.
      destruct (isPoint c) eqn:Ep.
      * rewrite (point_not_digit c Ep). cbn [orb andb Nat.add].
        rewrite (isFloatLike_loop_tail r 1 true false false) by lia.
        intuition (try discriminate; try lia).
      * destruct (isDigit c) eqn:Ed; cbn [negb orb andb Nat.add].
        -- rewrite (isFloatLike_loop_tail r 1 false false true) by lia.
           intuition (try discriminate; try lia).
        -- split; [discriminate | intros (H & _); discriminate].
Qed.

(** ** The precision *)

Lemma indexOf_from_absent (c : ascii) (s : string) (i : Z) :
  forallChars (fun d => negb (Ascii.eqb d c)) s = true ->
  indexOf_from c s i = (-1)%Z.
Proof.
  revert i; induction s as [|d r IH]; intros i H; [reflexivity |].
  cbn [forallChars indexOf_from] in *.
  apply andb_true_iff in H. destruct H as [Hd Hr].
  apply negb_true_iff in Hd. rewrite Hd. now apply IH.
Qed.

Lemma indexOf_from_first (c : ascii) (a b : string) (i : Z) :
  forallChars (fun d => negb (Ascii.eqb d c)) a = true ->
  indexOf_from c (a ++ String c b) i = (i + Z.of_nat (String.length a))%Z.
Proof.
  revert i; induction a as [|d r IH]; intros i H.
  - simpl. rewrite Ascii.eqb_refl. lia.
  - cbn [forallChars] in H. apply andb_true_iff in H. destruct H as [Hd Hr].
    apply negb_true_iff in Hd.
    simpl String.append. simpl indexOf_from. simpl String.length.
    rewrite Hd, IH by exact Hr. lia.
Qed.

(** X2. The precision derived from a resolution is the number of characters
    after its first decimal point (as an 8-bit count), and 0 when the
    resolution has no decimal point. *)
Theorem computeDecimals_counts (whole frac res : string) :
  forallChars (fun d => negb (Ascii.eqb d ".")) whole = true ->
  forallChars (fun d => negb (Ascii.eqb d ".")) res = true ->
  computeDecimals (whole ++ String "." frac)
  = (Z.of_nat (String.length frac) mod 256)%Z
  /\ computeDecimals res = 0%Z.
Proof.
  intros Hw Hr. unfold computeDecimals, indexOf. split.
  - rewrite indexOf_from_first by exact Hw.
    destruct (Z.ltb_spec (0 + Z.of_nat (String.length whole)) 0); [lia |].
    rewrite length_append. cbn [String.length]. f_equal. lia.
  - now rewrite indexOf_from_absent.
Qed.

Lemma computeDecimals_counts_witness :
  computeDecimals ("0" ++ String "." "01") = (Z.of_nat 2 mod 256)%Z
  /\ computeDecimals "1" = 0%Z.
Proof.
  apply (computeDecimals_counts "0" "01" "1"); reflexivity.
Defined.

(** ** Boolean reading *)

Lemma equalsIgnoreCase_lower (s t : string) :
  equalsIgnoreCase s t = String.eqb (toLowerCase s) (toLowerCase t).
Proof.
  revert t; induction s as [|a r IH]; intros [|b u]; try reflexivity.
  cbn [equalsIgnoreCase toLowerCase]. rewrite IH.
  destruct (Ascii.eqb_spec (tolower a) (tolower b)) as [-> | Hne].
  - cbn [andb]. destruct (String.eqb_spec (toLowerCase r) (toLowerCase u))
      as [-> | Hne].
    + symmetry. apply String.eqb_refl.
    + symmetry. apply String.eqb_neq. congruence.
  - cbn [andb]. symmetry. apply String.eqb_neq. congruence.
Qed.

(** X3. [readBool] is true exactly when the value is ["true"] or ["on"] in
    any mix of upper and lower case, or is ["1"]; every other value, the
    empty one included, reads as false. What [write(bool)] stores reads back
    as written. *)
Theorem readBool_true_iff (b : HAIoTBridge) (v : bool) (w : World) :
  (readBool b = true <->
   toLowerCase (_value b) = "true" \/ toLowerCase (_value b) = "on"
   \/ _value b = "1")
  /\ readBool (fst (write_bool v (b, w))) = v.
Proof.
  split.
  - unfold readBool. rewrite !equalsIgnoreCase_lower.
    change (toLowerCase "true") with "true".
    change (toLowerCase "on") with "on".
    rewrite !orb_true_iff, !String.eqb_eq. tauto.
  - unfold write_bool, write_cstr. rewrite write_stores. now destruct v.
Qed.

(** ** Echo of accepted commands *)

(** X4. A payload accepted by a Control is written to NVS and then
    published back on the outbound topic of the entity (when it has one); a
    payload accepted by any other kind causes no NVS write and no publish.
    In both cases the acknowledged value is left as it was. *)
Theorem dispatch_echo (topic payload : string) (flushMode : bool)
    (b : HAIoTBridge) (w : World) :
  constructed b ->
  fst (readMQTT topic payload flushMode (b, w)) = true ->
  let st' := snd (readMQTT topic payload flushMode (b, w)) in
  events (snd st')
  = (events w
     ++ if TypeHA_eqb (_type b) HA_CONTROL
        then NvsPut (_nvsKey b) payload
             :: (if isEmpty (_topicTo b) then []
                 else [MqttPublish (_topicTo b) payload (_logWrites b)])
        else [])%list
  /\ _valueMem (fst st') = _valueMem b.
Proof.
  intros Hc. rewrite readMQTT_unfold.
  destruct (isEmpty (_topicFrom b) || TypeHA_eqb (_type b) HA_INDICATOR);
    [discriminate |].
  destruct (flushMode && negb (TypeHA_eqb (_type b) HA_ENTITIES));
    [discriminate |].
  destruct (negb (String.eqb topic (_topicFrom b))); [discriminate |].
  intros _. cbn [fst snd set_values _valueMem]. split; [| reflexivity].
  destruct (TypeHA_eqb (_type b) HA_CONTROL) eqn:Et;
    [| now rewrite app_nil_r].
  unfold saveAndPublish. cbn [set_values _type _nvsKey].
  rewrite (nvsKey_fits b Hc), Et. cbn [andb].
  unfold publish. cbn [set_values _topicTo _logWrites]. rewrite length_zero.
  destruct (isEmpty (_topicTo b)); cbn [putString emit events];
    [reflexivity | now rewrite <- app_assoc].
Qed.

Lemma dispatch_echo_witness :
  constructed setpoint
  /\ fst (readMQTT "Virgo/setpoint/fromHA" "21.5" false
                   (setpoint, emptyWorld)) = true
  /\ events (snd (snd (readMQTT "Virgo/setpoint/fromHA" "21.5" false
                                (setpoint, emptyWorld))))
     = [NvsPut "ridge_setpoint8" "21.5";
        MqttPublish "Virgo/setpoint/toHA" "21.5" true].
Proof.
  split; [split; reflexivity |]. split; [reflexivity |].
  apply (dispatch_echo "Virgo/setpoint/fromHA" "21.5" false setpoint
           emptyWorld); [split; reflexivity | reflexivity].
Defined.

(** ** The persistence key, continued *)

Lemma substring_from_app (pre tail : string) :
  substring_from (String.length pre) (pre ++ tail) = tail.
Proof. induction pre as [|c r IH]; [now destruct tail | exact IH]. Qed.

Lemma append_inj_length (a b c d : string) :
  String.length a = String.length c -> a ++ b = c ++ d -> a = c /\ b = d.
Proof.
  revert c; induction a as [|x a IH]; intros [|y c] Hlen Heq;
    try discriminate; [now split |].
  cbn in Hlen, Heq. injection Heq as -> Heq.
  destruct (IH c) as [-> ->]; [lia | exact Heq | now split].
Qed.

Lemma digit_inj (d e : Z) :
  (0 <= d < 10)%Z -> (0 <= e < 10)%Z -> digit d = digit e -> d = e.
Proof.
  intros Hd He H.
  assert (Hd' : (d = 0 \/ d = 1 \/ d = 2 \/ d = 3 \/ d = 4 \/ d = 5 \/ d = 6
                 \/ d = 7 \/ d = 8 \/ d = 9)%Z) by lia.
  assert (He' : (e = 0 \/ e = 1 \/ e = 2 \/ e = 3 \/ e = 4 \/ e = 5 \/ e = 6
                 \/ e = 7 \/ e = 8 \/ e = 9)%Z) by lia.
  repeat (destruct Hd' as [-> | Hd']);
    repeat (destruct He' as [-> | He']); subst;
    first [reflexivity | discriminate H].
Qed.

Lemma charSum_app (a b : string) :
  charSum (a ++ b) = (charSum a + charSum b)%Z.
Proof. induction a as [|c r IH]; simpl; [reflexivity | rewrite IH; lia]. Qed.

(** The key of a name that ends in the 14 characters [tail] and is longer
    than 15. *)
Lemma shortenKey_app (pre tail : string) :
  String.length tail = 14 -> 2 <= String.length pre ->
  shortenKey (pre ++ tail)
  = tail ++ digit (((charSum pre + charSum tail) mod 256) mod 10).
Proof.
  intros Ht Hp. unfold shortenKey. rewrite length_append, Ht.
  destruct (String.length pre + 14 <=? 15)%nat eqn:E;
    [apply Nat.leb_le in E; lia |].
  replace (String.length pre + 14 - 14) with (String.length pre) by lia.
  rewrite substring_from_app, shortenKey_sum_charSum by lia.
  rewrite Z.add_0_l, charSum_app.
  now rewrite ofInt_digit by (apply Z.mod_pos_bound; lia).
Qed.

(** X5. Every key fits the 15 characters NVS allows, and a name of at most
    15 characters is returned unchanged, so that two distinct names of at
    most 15 characters never share a key. *)
Theorem shortenKey_fits (full a b : string) :
  String.length (shortenKey full) <= 15
  /\ (String.length a <= 15 -> shortenKey a = a)
  /\ (String.length a <= 15 -> String.length b <= 15 ->
      shortenKey a = shortenKey b -> a = b).
Proof.
  split; [apply length_shortenKey |]. split.
  - intros Ha. unfold shortenKey. apply Nat.leb_le in Ha. now rewrite Ha.
  - intros Ha Hb. unfold shortenKey.
    apply Nat.leb_le in Ha, Hb. now rewrite Ha, Hb.
Qed.

(** X6. Two names longer than 15 characters get the same key exactly when
    they end in the same 14 characters and the sums of their character
    codes, reduced modulo 256, leave the same remainder modulo 10. *)
Theorem shortenKey_collision (pre1 pre2 tail1 tail2 : string) :
  String.length tail1 = 14 -> String.length tail2 = 14 ->
  2 <= String.length pre1 -> 2 <= String.length pre2 ->
  shortenKey (pre1 ++ tail1) = shortenKey (pre2 ++ tail2) <->
  tail1 = tail2
  /\ ((charSum (pre1 ++ tail1) mod 256) mod 10
      = (charSum (pre2 ++ tail2) mod 256) mod 10)%Z.
Proof.
  intros Ht1 Ht2 Hp1 Hp2.
  rewrite !shortenKey_app, !charSum_app by assumption. split.
  - intros H. apply append_inj_length in H; [| lia].
    destruct H as [-> Hd]. split; [reflexivity |].
    apply digit_inj in Hd; [exact Hd | |]; apply Z.mod_pos_bound; lia.
  - intros [-> ->]. reflexivity.
Qed.

Lemma shortenKey_collision_witness :
  String.length "_room_humidity" = 14
  /\ 2 <= String.length "Iot_ab"
  /\ 2 <= String.length "Iot_ba"
  /\ shortenKey ("Iot_ab" ++ "_room_humidity")
     = shortenKey ("Iot_ba" ++ "_room_humidity").
Proof.
  split; [reflexivity |].
  split; [vm_compute; lia |]. split; [vm_compute; lia |].
  apply (shortenKey_collision "Iot_ab" "Iot_ba" "_room_humidity"
           "_room_humidity"); try reflexivity; try (vm_compute; lia).
  split; reflexivity.
Defined.

(** ** Initialisation, restart and reset *)

Section Lifecycle.

Variable renderFloat : string -> Z -> string.

Lemma reboot_construct (cfg : BridgeConfig) :
  reboot (construct cfg) = construct cfg.
Proof. reflexivity. Qed.

(** What [init] makes of the text found under the key. *)
Lemma init_value (b : HAIoTBridge) (w : World) :
  _value (fst (init renderFloat (b, w)))
  = if TypeHA_eqb (_type b) HA_CONTROL
    then if isEmpty (getString (_nvsKey b) w)
            && negb (isEmpty (_defaultValue b))
         then _defaultValue b
         else normalize renderFloat (_decimals b) (getString (_nvsKey b) w)
    else _defaultValue b.
Proof.
  unfold init.
  destruct (TypeHA_eqb (_type b) HA_CONTROL); [| reflexivity].
  now destruct (isEmpty (getString (_nvsKey b) w)
                && negb (isEmpty (_defaultValue b))).
Qed.

(** X7. [init] marks the bridge initialised and takes the restored value as
    already acknowledged, so that on every kind but Trigger the next
    [onChange] returns false; it writes nothing to NVS and publishes
    nothing. *)
Theorem init_is_silent (b : HAIoTBridge) (w : World) :
  let st' := init renderFloat (b, w) in
  snd st' = w
  /\ _initialized (fst st') = true
  /\ _valueMem (fst st') = _value (fst st')
  /\ (_type b <> HA_BUTTON -> fst (onChange (fst st')) = false).
Proof.
  cbv zeta. unfold init.
  set (b1 := if TypeHA_eqb (_type b) HA_CONTROL then _ else _).
  assert (Hmem : _valueMem b1 = _value b1 /\ _type b1 = _type b).
  { subst b1. destruct (TypeHA_eqb (_type b) HA_CONTROL); [| now split].
    now destruct (isEmpty (getString (_nvsKey b) w)
                  && negb (isEmpty (_defaultValue b))). }
  destruct Hmem as [Hmem Hty]. cbn [fst snd set_initialized _initialized
    _valueMem _value].
  repeat split; try exact Hmem.
  intros Hb. unfold onChange. cbn [set_initialized _value _valueMem _type].
  destruct (isEmpty (_value b1)); [reflexivity |].
  rewrite Hty. apply TypeHA_eqb_neq in Hb. rewrite Hb, Hmem.
  now rewrite String.eqb_refl.
Qed.

Lemma getString_put (key val : string) (w : World) :
  getString key (putString key val w) = val.
Proof. unfold getString, putString. cbn [nvs]. now rewrite lookup_insert_eq. Qed.

Lemma getString_publish (b : HAIoTBridge) (key val : string) (w : World) :
  getString key (publish b val w) = getString key w.
Proof. unfold getString. now rewrite nvs_publish. Qed.

Lemma getString_saveAndPublish (b : HAIoTBridge) (val : string) (w : World) :
  constructed b -> _type b = HA_CONTROL ->
  getString (_nvsKey b) (saveAndPublish b val w) = val.
Proof.
  intros Hc Ht. unfold getString.
  rewrite nvs_saveAndPublish_control by assumption.
  now rewrite lookup_insert_eq.
Qed.

Lemma normalize_empty (dec : Z) : normalize renderFloat dec "" = "".
Proof. reflexivity. Qed.

(** X8. A Control restores after a restart what the device last wrote: a
    text that is not float-like comes back as written, a float-like text
    comes back rendered with the precision of the entity, and an empty text
    comes back as the default value. *)
Theorem restore_after_write (v : string) (b : HAIoTBridge) (w : World) :
  constructed b ->
  _type b = HA_CONTROL ->
  let w' := snd (write v (b, w)) in
  let restored := _value (fst (init renderFloat (reboot b, w'))) in
  (v <> "" -> isFloatLike v = false -> restored = v)
  /\ (isFloatLike v = true -> restored = renderFloat v (_decimals b))
  /\ (v = "" -> restored = _defaultValue b).
Proof.
  intros Hc Ht w' restored.
  assert (Hget : getString (_nvsKey b) w' = v).
  { subst w'. unfold write. cbn [set_values _type _value]. rewrite Ht.
    cbn [TypeHA_eqb snd].
    now rewrite (getString_saveAndPublish (set_values b v v)). }
  assert (Hres : restored
                 = if isEmpty v && negb (isEmpty (_defaultValue b))
                   then _defaultValue b
                   else normalize renderFloat (_decimals b) v).
  { subst restored. rewrite init_value.
    cbn [reboot set_initialized set_values _type _nvsKey _defaultValue
         _decimals].
    now rewrite Ht, Hget. }
  rewrite Hres. repeat split.
  - intros Hne Hfl. apply isEmpty_false in Hne. rewrite Hne.
    unfold normalize. now rewrite Hfl.
  - intros Hfl. assert (Hne : isEmpty v = false) by now destruct v.
    rewrite Hne. unfold normalize. now rewrite Hfl.
  - intros ->. cbn [isEmpty andb].
    destruct (isEmpty (_defaultValue b)) eqn:Ed; cbn [negb]; [| reflexivity].
    apply isEmpty_true in Ed. now rewrite Ed.
Qed.

(** X9. A Control restores after a restart the last payload it accepted
    from the hub, under the same rules. *)
Theorem restore_after_dispatch (topic payload : string) (flushMode : bool)
    (b : HAIoTBridge) (w : World) :
  constructed b ->
  _type b = HA_CONTROL ->
  fst (readMQTT topic payload flushMode (b, w)) = true ->
  let w' := snd (snd (readMQTT topic payload flushMode (b, w))) in
  let restored := _value (fst (init renderFloat (reboot b, w'))) in
  (payload <> "" -> isFloatLike payload = false -> restored = payload)
  /\ (isFloatLike payload = true ->
      restored = renderFloat payload (_decimals b))
  /\ (payload = "" -> restored = _defaultValue b).
Proof.
  intros Hc Ht Hr w' restored.
  assert (Hget : getString (_nvsKey b) w' = payload).
  { subst w'. revert Hr. rewrite readMQTT_unfold.
    destruct (isEmpty (_topicFrom b) || TypeHA_eqb (_type b) HA_INDICATOR);
      [discriminate |].
    destruct (flushMode && negb (TypeHA_eqb (_type b) HA_ENTITIES));
      [discriminate |].
    destruct (negb (String.eqb topic (_topicFrom b))); [discriminate |].
    intros _. cbn [snd]. rewrite Ht. cbn [TypeHA_eqb].
    now rewrite (getString_saveAndPublish
                   (set_values b payload (_valueMem b))). }
  assert (Hres : restored
                 = if isEmpty payload && negb (isEmpty (_defaultValue b))
                   then _defaultValue b
                   else normalize renderFloat (_decimals b) payload).
  { subst restored. rewrite init_value.
    cbn [reboot set_initialized set_values _type _nvsKey _defaultValue
         _decimals].
    now rewrite Ht, Hget. }
  rewrite Hres. repeat split.
  - intros Hne Hfl. apply isEmpty_false in Hne. rewrite Hne.
    unfold normalize. now rewrite Hfl.
  - intros Hfl. assert (Hne : isEmpty payload = false) by now destruct payload.
    rewrite Hne. unfold normalize. now rewrite Hfl.
  - intros ->. cbn [isEmpty andb].
    destruct (isEmpty (_defaultValue b)) eqn:Ed; cbn [negb]; [| reflexivity].
    apply isEmpty_true in Ed. now rewrite Ed.
Qed.

(** X10. [reset] empties the value and removes the entry under the key of
    the bridge, leaving every other NVS entry as it was; an [init] after it
    gives the default value, whatever the kind of the entity. *)
Theorem reset_then_init (b : HAIoTBridge) (w : World) :
  let st' := reset (b, w) in
  _value (fst st') = ""
  /\ _valueMem (fst st') = ""
  /\ nvs (snd st') !! _nvsKey b = None
  /\ (forall k, k <> _nvsKey b -> nvs (snd st') !! k = nvs w !! k)
  /\ _value (fst (init renderFloat st')) = _defaultValue b.
Proof.
  cbv zeta. unfold reset. cbn [fst snd set_values _value _valueMem].
  repeat split.
  - unfold removeKey. cbn [nvs]. apply lookup_delete_eq.
  - intros k Hk. unfold removeKey. cbn [nvs]. now apply lookup_delete_ne.
  - rewrite init_value. cbn [set_values _type _nvsKey _defaultValue _decimals].
    destruct (TypeHA_eqb (_type b) HA_CONTROL); [| reflexivity].
    unfold getString, removeKey. cbn [nvs]. rewrite lookup_delete_eq.
    cbn [default from_option id isEmpty andb].
    destruct (isEmpty (_defaultValue b)) eqn:Ed; cbn [negb]; [| reflexivity].
    apply isEmpty_true in Ed. now rewrite Ed.
Qed.

End Lifecycle.

(** ** Sequences of calls *)

Section CallSequences.

Variable renderFloat : string -> Z -> string.

Lemma same_config_refl (b : HAIoTBridge) : same_config b b.
Proof. repeat split. Qed.

Lemma same_config_trans (a b c : HAIoTBridge) :
  same_config a b -> same_config b c -> same_config a c.
Proof.
  unfold same_config. intros H1 H2.
  destruct H1 as (?&?&?&?&?&?&?&?&?), H2 as (?&?&?&?&?&?&?&?&?).
  repeat split; congruence.
Qed.

Lemma step_ok_same (b b' : HAIoTBridge) (w : World) :
  same_config b' b -> step_ok b w (b', w).
Proof.
  intros H. split; [exact H |]. split; [| reflexivity].
  exists []. split; [now rewrite app_nil_r | constructor].
Qed.

Lemma step_ok_publish (b b' : HAIoTBridge) (val : string) (w w1 : World) :
  same_config b' b ->
  step_ok b w (b', w1) -> step_ok b w (b', publish b' val w1).
Proof.
  unfold step_ok. cbn [fst snd].
  intros Hs (_ & (new & Hev & Hown) & Hnvs). split; [exact Hs |].
  unfold publish. rewrite length_zero.
  destruct (isEmpty (_topicTo b')) eqn:Et;
    [split; [exists new; now split | exact Hnvs] |].
  split.
  - exists (new ++ [MqttPublish (_topicTo b') val (_logWrites b')])%list.
    cbn [emit events]. rewrite Hev, app_assoc. split; [reflexivity |].
    apply Forall_app. split; [exact Hown |].
    constructor; [| constructor].
    destruct Hs as (_ & _ & Hto & _ & _ & _ & _ & _ & Hlog).
    cbn [own_event]. apply isEmpty_false in Et. rewrite <- Hto. now split.
  - exact Hnvs.
Qed.

Lemma step_ok_saveAndPublish (b b' : HAIoTBridge) (val : string) (w : World) :
  same_config b' b -> step_ok b w (b', saveAndPublish b' val w).
Proof.
  intros Hs. unfold saveAndPublish.
  apply step_ok_publish; [exact Hs |].
  destruct (String.length (_nvsKey b') <=? 15)%nat; cbn [andb];
    [| now apply step_ok_same].
  destruct (TypeHA_eqb (_type b') HA_CONTROL) eqn:Et;
    [| now apply step_ok_same].
  apply TypeHA_eqb_eq in Et.
  destruct Hs as (Hn & Hty & Hto & Hfrom & Hres & Hdef & Hkey & Hdec & Hlog).
  split; [repeat split; assumption |]. split.
  - exists [NvsPut (_nvsKey b') val]. cbn [putString events].
    split; [reflexivity |]. constructor; [| constructor].
    cbn [own_event]. split; congruence.
  - intros k Hk. cbn [putString nvs snd]. rewrite lookup_insert_ne; congruence.
Qed.

Lemma step_ok_call (op : Op) (b : HAIoTBridge) (w : World) :
  step_ok b w (call renderFloat op (b, w)).
Proof.
  destruct op as [| v | v | v | | topic payload flushMode | |];
    cbn [call fst snd].
  - unfold init. apply step_ok_same.
    destruct (TypeHA_eqb (_type b) HA_CONTROL);
      [destruct (isEmpty (getString (_nvsKey b) w)
                 && negb (isEmpty (_defaultValue b))) |];
      repeat split.
  - unfold write. cbn [set_values _type _value].
    destruct (TypeHA_eqb (_type b) HA_CONTROL).
    + apply step_ok_saveAndPublish. repeat split.
    + apply step_ok_publish; [| apply step_ok_same]; repeat split.
  - unfold write_int, write. cbn [set_values _type _value].
    destruct (TypeHA_eqb (_type b) HA_CONTROL).
    + apply step_ok_saveAndPublish. repeat split.
    + apply step_ok_publish; [| apply step_ok_same]; repeat split.
  - unfold write_bool, write_cstr, write. cbn [set_values _type _value].
    destruct (TypeHA_eqb (_type b) HA_CONTROL).
    + apply step_ok_saveAndPublish. repeat split.
    + apply step_ok_publish; [| apply step_ok_same]; repeat split.
  - apply step_ok_same. unfold onChange.
    destruct (isEmpty (_value b)); [repeat split |].
    destruct (TypeHA_eqb (_type b) HA_BUTTON); [repeat split |].
    destruct (String.eqb (_value b) (_valueMem b)); repeat split.
  - rewrite readMQTT_unfold.
    destruct (isEmpty (_topicFrom b) || TypeHA_eqb (_type b) HA_INDICATOR);
      [apply step_ok_same; repeat split |].
    destruct (flushMode && negb (TypeHA_eqb (_type b) HA_ENTITIES));
      [apply step_ok_same; repeat split |].
    destruct (negb (String.eqb topic (_topicFrom b)));
      [apply step_ok_same; repeat split |].
    cbn [snd].
    destruct (TypeHA_eqb (_type b) HA_CONTROL).
    + apply step_ok_saveAndPublish. repeat split.
    + apply step_ok_same. repeat split.
  - unfold publishValueToHA.
    destruct (TypeHA_eqb (_type b) HA_CONTROL).
    + apply step_ok_publish; [| apply step_ok_same]; repeat split.
    + apply step_ok_same. repeat split.
  - unfold reset. split; [repeat split |]. split.
    + exists [NvsRemove (_nvsKey b)]. cbn [removeKey events snd].
      split; [reflexivity |]. constructor; [| constructor]. reflexivity.
    + intros k Hk. cbn [removeKey nvs snd]. now apply lookup_delete_ne.
Qed.

Lemma own_event_config (a b : HAIoTBridge) (e : Event) :
  same_config a b -> own_event a e -> own_event b e.
Proof.
  intros (Hn & Hty & Hto & Hfrom & Hres & Hdef & Hkey & Hdec & Hlog).
  destruct e; cbn [own_event]; intuition congruence.
Qed.

(** X11. Whatever calls are made on a bridge, in whatever order, the bridge
    keeps its configuration and touches nothing but its own: every NVS write
    is under its own key and made by a Control, every NVS removal is of its
    own key, every publish is on its own outbound topic, which is then not
    empty, and every NVS entry under another key stays as it was. *)
Theorem calls_stay_within_bounds (ops : list Op) (b : HAIoTBridge)
    (w : World) :
  let st' := calls renderFloat ops (b, w) in
  same_config (fst st') b
  /\ (exists new, events (snd st') = (events w ++ new)%list
                  /\ Forall (own_event b) new)
  /\ (forall k, k <> _nvsKey b -> nvs (snd st') !! k = nvs w !! k).
Proof.
  revert b w. induction ops as [|op ops IH]; intros b w.
  - apply (step_ok_same b b w), same_config_refl.
  - cbn [calls]. pose proof (step_ok_call op b w) as Hstep.
    destruct (call renderFloat op (b, w)) as [b1 w1].
    destruct Hstep as (Hs1 & (new1 & Hev1 & Hown1) & Hnvs1).
    cbn [fst snd] in Hs1, Hev1, Hnvs1.
    destruct (IH b1 w1) as (Hs2 & (new2 & Hev2 & Hown2) & Hnvs2).
    split; [now apply (same_config_trans _ b1) |]. split.
    + exists (new1 ++ new2)%list. rewrite Hev2, Hev1, app_assoc.
      split; [reflexivity |]. apply Forall_app. split; [exact Hown1 |].
      eapply Forall_impl; [exact Hown2 |].
      intros e. now apply own_event_config.
    + intros k Hk. rewrite Hnvs2, Hnvs1; [reflexivity | exact Hk |].
      destruct Hs1 as (_ & _ & _ & _ & _ & _ & Hkey & _). congruence.
Qed.

(** One call keeps the NVS entry of a Control equal to its value, [init]
    apart. *)
Lemma mirror_call (op : Op) (b : HAIoTBridge) (w : World) :
  constructed b -> _type b = HA_CONTROL -> is_init op = false ->
  getString (_nvsKey b) w = _value b ->
  let st' := call renderFloat op (b, w) in
  getString (_nvsKey (fst st')) (snd st') = _value (fst st').
Proof.
  intros Hc Ht Hop Hm. cbv zeta.
  destruct op as [| v | v | v | | topic payload flushMode | |];
    cbn [call fst snd]; try discriminate Hop.
  - unfold write. cbn [set_values _type _value]. rewrite Ht.
    cbn [TypeHA_eqb fst snd set_values _nvsKey _value].
    now rewrite (getString_saveAndPublish (set_values b v v)).
  - unfold write_int, write. cbn [set_values _type _value]. rewrite Ht.
    cbn [TypeHA_eqb fst snd set_values _nvsKey _value].
    now rewrite (getString_saveAndPublish (set_values b _ _)).
  - unfold write_bool, write_cstr, write. cbn [set_values _type _value].
    rewrite Ht. cbn [TypeHA_eqb fst snd set_values _nvsKey _value].
    now rewrite (getString_saveAndPublish (set_values b _ _)).
  - unfold onChange.
    destruct (isEmpty (_value b)); [exact Hm |].
    rewrite Ht. cbn [TypeHA_eqb].
    destruct (String.eqb (_value b) (_valueMem b)); exact Hm.
  - rewrite readMQTT_unfold.
    destruct (isEmpty (_topicFrom b) || TypeHA_eqb (_type b) HA_INDICATOR);
      [exact Hm |].
    destruct (flushMode && negb (TypeHA_eqb (_type b) HA_ENTITIES));
      [exact Hm |].
    destruct (negb (String.eqb topic (_topicFrom b))); [exact Hm |].
    rewrite Ht. cbn [TypeHA_eqb fst snd set_values _nvsKey _value].
    now rewrite (getString_saveAndPublish (set_values b _ _)).
  - unfold publishValueToHA. rewrite Ht. cbn [TypeHA_eqb fst snd].
    now rewrite getString_publish.
  - unfold reset. cbn [fst snd set_values _nvsKey _value].
    unfold getString, removeKey. cbn [nvs]. now rewrite lookup_delete_eq.
Qed.

Lemma call_constructed (op : Op) (b : HAIoTBridge) (w : World) :
  constructed b ->
  constructed (fst (call renderFloat op (b, w)))
  /\ _type (fst (call renderFloat op (b, w))) = _type b.
Proof.
  intros [Hk Hd].
  destruct (step_ok_call op b w)
    as ((Hn & Hty & _ & _ & Hres & _ & Hkey & Hdec & _) & _).
  split; [split |]; congruence.
Qed.

(** X12. On a Control, once the NVS entry equals the current value (as it
    does after any [write]), it stays equal to it through every further
    sequence of writes, dispatches, change polls, publishes and resets: what
    a restart would find is the value the device currently holds. *)
Theorem nvs_mirrors_value (ops : list Op) (b : HAIoTBridge) (w : World) :
  constructed b ->
  _type b = HA_CONTROL ->
  existsb is_init ops = false ->
  getString (_nvsKey b) w = _value b ->
  let st' := calls renderFloat ops (b, w) in
  getString (_nvsKey (fst st')) (snd st') = _value (fst st').
Proof.
  revert b w. induction ops as [|op ops IH]; intros b w Hc Ht Hops Hm.
  - exact Hm.
  - cbn [existsb] in Hops. apply orb_false_iff in Hops.
    destruct Hops as [Hop Hops]. cbn [calls].
    pose proof (mirror_call op b w Hc Ht Hop Hm) as Hm1.
    destruct (call_constructed op b w Hc) as [Hc1 Ht1].
    destruct (call renderFloat op (b, w)) as [b1 w1].
    cbn [fst snd] in *. apply IH; try assumption. congruence.
Qed.

End CallSequences.

Lemma nvs_mirrors_value_witness :
  let ops := [OpOnChange; OpReadMQTT "Virgo/setpoint/fromHA" "19.5" false;
              OpPublishValueToHA; OpWriteInt 21] in
  let st := write "20" (setpoint, emptyWorld) in
  constructed (fst st)
  /\ _type (fst st) = HA_CONTROL
  /\ getString (_nvsKey (fst st)) (snd st) = _value (fst st)
  /\ getString "ridge_setpoint8" (snd (calls (fun s _ => s) ops st)) = "21".
Proof.
  intros ops st.
  assert (Hc : constructed (fst st)) by (split; reflexivity).
  assert (Ht : _type (fst st) = HA_CONTROL) by reflexivity.
  assert (Hm : getString (_nvsKey (fst st)) (snd st) = _value (fst st))
    by reflexivity.
  repeat (split; [assumption |]).
  exact (nvs_mirrors_value (fun s _ => s) ops (fst st) (snd st) Hc Ht
           eq_refl Hm).
Defined.

(** ** Where changes come from *)

(** X13. On every kind but Trigger, a value the device writes is not
    reported as a change, while a payload accepted from the hub is, exactly
    when it is not empty and differs from the acknowledged value. *)
Theorem change_comes_from_hub (v topic payload : string) (flushMode : bool)
    (b : HAIoTBridge) (w : World) :
  _type b <> HA_BUTTON ->
  fst (onChange (fst (write v (b, w)))) = false
  /\ (fst (readMQTT topic payload flushMode (b, w)) = true ->
      (fst (onChange (fst (snd (readMQTT topic payload flushMode (b, w)))))
       = true
       <-> payload <> "" /\ payload <> _valueMem b)).
Proof.
  intros Hb. apply TypeHA_eqb_neq in Hb. split.
  - rewrite write_stores. unfold onChange. cbn [set_values _value _valueMem
      _type]. destruct (isEmpty v); [reflexivity |].
    now rewrite Hb, String.eqb_refl.
  - rewrite readMQTT_unfold.
    destruct (isEmpty (_topicFrom b) || TypeHA_eqb (_type b) HA_INDICATOR);
      [discriminate |].
    destruct (flushMode && negb (TypeHA_eqb (_type b) HA_ENTITIES));
      [discriminate |].
    destruct (negb (String.eqb topic (_topicFrom b))); [discriminate |].
    intros _. cbn [fst snd]. unfold onChange.
    cbn [set_values _value _valueMem _type]. rewrite Hb.
    destruct (isEmpty payload) eqn:Ep; bool_hyps; cbn [fst].
    + intuition (try discriminate; try congruence).
    + destruct (String.eqb payload (_valueMem b)) eqn:Em; bool_hyps;
        cbn [fst]; intuition (try discriminate; try congruence).
Qed.

Lemma change_comes_from_hub_witness :
  _type ha_online <> HA_BUTTON
  /\ fst (onChange (fst (write "true" (ha_online, emptyWorld)))) = false
  /\ fst (onChange (fst (snd (readMQTT "HA/domotique/online" "true" false
                                       (ha_online, emptyWorld))))) = true.
Proof.
  split; [discriminate |].
  destruct (change_comes_from_hub "true" "HA/domotique/online" "true" false
              ha_online emptyWorld) as [H1 H2]; [discriminate |].
  split; [exact H1 |].
  apply H2; [reflexivity | split; discriminate].
Defined.

(** X14. A Trigger fires through the hub as it does through [write]: after
    a non-empty payload is accepted, successive calls of [onChange] return
    true once and false afterwards, and the value is empty again. *)
Theorem trigger_fires_from_hub (topic payload : string) (flushMode : bool)
    (b : HAIoTBridge) (w : World) (n : nat) :
  _type b = HA_BUTTON ->
  payload <> "" ->
  fst (readMQTT topic payload flushMode (b, w)) = true ->
  let b' := fst (snd (readMQTT topic payload flushMode (b, w))) in
  fst (onChange_repeat (S n) b') = true :: repeat false n
  /\ _value (snd (onChange b')) = ""
  /\ snd (snd (readMQTT topic payload flushMode (b, w))) = w.
Proof.
  intros Ht Hp. rewrite readMQTT_unfold.
  destruct (isEmpty (_topicFrom b) || TypeHA_eqb (_type b) HA_INDICATOR);
    [discriminate |].
  destruct (flushMode && negb (TypeHA_eqb (_type b) HA_ENTITIES));
    [discriminate |].
  destruct (negb (String.eqb topic (_topicFrom b))); [discriminate |].
  intros _. cbn [fst snd]. rewrite Ht. cbn [TypeHA_eqb].
  assert (Hfirst : onChange (set_values b payload (_valueMem b))
                   = (true, set_values (set_values b payload (_valueMem b))
                                       "" "")).
  { unfold onChange. cbn [set_values _value _type].
    apply isEmpty_false in Hp. rewrite Hp, Ht. reflexivity. }
  cbn [onChange_repeat]. rewrite Hfirst.
  rewrite onChange_repeat_empty by reflexivity.
  repeat split.
Qed.

Lemma trigger_fires_from_hub_witness :
  _type ota = HA_BUTTON
  /\ "PRESS" <> ""
  /\ fst (readMQTT "Virgo/OTA/fromHA" "PRESS" false (ota, emptyWorld)) = true
  /\ fst (onChange_repeat 3
            (fst (snd (readMQTT "Virgo/OTA/fromHA" "PRESS" false
                                (ota, emptyWorld)))))
     = [true; false; false].
Proof.
  split; [reflexivity |]. split; [discriminate |]. split; [reflexivity |].
  apply (trigger_fires_from_hub "Virgo/OTA/fromHA" "PRESS" false ota
           emptyWorld 2); [reflexivity | discriminate | reflexivity].
Defined.

Lemma restore_after_write_witness :
  constructed setpoint
  /\ _type setpoint = HA_CONTROL
  /\ _value (fst (init (fun s _ => s)
                    (reboot setpoint,
                     snd (write "AUTO" (setpoint, emptyWorld))))) = "AUTO".
Proof.
  split; [split; reflexivity |]. split; [reflexivity |].
  destruct (restore_after_write (fun s _ => s) "AUTO" setpoint emptyWorld)
    as (H & _); [split; reflexivity | reflexivity |].
  apply H; [discriminate | reflexivity].
Defined.

Lemma restore_after_dispatch_witness :
  constructed setpoint
  /\ _type setpoint = HA_CONTROL
  /\ fst (readMQTT "Virgo/setpoint/fromHA" "ECO" false
                   (setpoint, emptyWorld)) = true
  /\ _value (fst (init (fun s _ => s)
                    (reboot setpoint,
                     snd (snd (readMQTT "Virgo/setpoint/fromHA" "ECO" false
                                        (setpoint, emptyWorld)))))) = "ECO".
Proof.
  split; [split; reflexivity |]. split; [reflexivity |].
  split; [reflexivity |].
  destruct (restore_after_dispatch (fun s _ => s) "Virgo/setpoint/fromHA"
              "ECO" false setpoint emptyWorld)
    as (H & _); [split; reflexivity | reflexivity | reflexivity |].
  apply H; [discriminate | reflexivity].
Defined.

End BridgeExtra.

(** * Further properties of the network guards *)

Module NetExtra.
Import Net NetProps.
Local Open Scope Z_scope.

(** ** Link guard: one call *)

(** X15. The Wi-Fi guard returns true exactly when it finds the link
    attached; it then makes no call on the radio, clears the attempt count
    and the in-flight mark, sets the delay back to 100 ms, and leaves the
    four other statics (the stamps of the last attempt, of the last driver
    reset and of the last scan, and the scan's verdict) as they are. *)
Theorem wifi_result_is_link_state (s : WiFiGuard) (e : WiFiPoll) :
  wifi_result s e = is_connected (st e)
  /\ (is_connected (st e) = true ->
      wifi_events s e = []
      /\ tryCount (wifi_next s e) = 0
      /\ delayNext (wifi_next s e) = 100
      /\ connecting (wifi_next s e) = false
      /\ lastAttempt (wifi_next s e) = lastAttempt s
      /\ lastReset (wifi_next s e) = lastReset s
      /\ ssidVisible (wifi_next s e) = ssidVisible s
      /\ lastScan (wifi_next s e) = lastScan s).
Proof.
  destruct s as [la lr tc dn cn sv ls].
  destruct e as [ssid pass id stat nets t1 t2 t3 t4 t5 t6 t7 t8 raw].
  wifi_unfold.
  destruct (is_connected stat); [split; [reflexivity | repeat split] |].
  split; [| discriminate].
  destruct (negb sv && (sub32 (millis t1) ls <? 30000))%bool; [reflexivity |].
  destruct ((5 <=? tc) && (30000 <? sub32 (millis t2) ls))%bool;
    [destruct (ssid_found ssid nets) |]; wifi_simpl; try reflexivity;
    destruct cn; wifi_simpl;
    try (destruct (sub32 (millis t4) la <? 8000); wifi_simpl;
         try reflexivity);
    destruct (sub32 (millis t5) la <? dn); reflexivity.
Qed.

Lemma wifi_scan_events (s : WiFiGuard) (e : WiFiPoll) :
  snd (wifi_scan s e) = [] \/ snd (wifi_scan s e) = [WiFiScanNetworks].
Proof.
  unfold wifi_scan.
  destruct ((5 <=? tryCount s)
            && (30000 <? sub32 (millis (t_scanGate e)) (lastScan s)))%bool;
    [| now left].
  cbn [ssidVisible].
  destruct (ssid_found (cfgwifi_ssid e) (scanned e)); now right.
Qed.

Lemma wifi_attach_events (s : WiFiGuard) (e : WiFiPoll) :
  snd (wifi_attach s e) = [WiFiBegin (cfgwifi_ssid e) (cfgwifi_pass e)]
  \/ snd (wifi_attach s e)
     = [WiFiDisconnect true true; Delay 50; WiFiModeSTA;
        WiFiSetHostname (cfgdevice_id e);
        WiFiBegin (cfgwifi_ssid e) (cfgwifi_pass e)].
Proof.
  unfold wifi_attach. cbn [snd].
  destruct (5000 <? sub32 (millis (t_resetGate e)) (lastReset s));
    [now right | now left].
Qed.

(** X16. In one call the Wi-Fi guard scans at most once and attaches at most
    once, with the configured SSID and password; it resets the radio driver
    only in a call that goes on to attach, and always in the same order:
    disconnect, 50 ms pause, station mode, host name. *)
Theorem wifi_events_shape (s : WiFiGuard) (e : WiFiPoll) :
  let begin_ := WiFiBegin (cfgwifi_ssid e) (cfgwifi_pass e) in
  let reset_ := [WiFiDisconnect true true; Delay 50; WiFiModeSTA;
                 WiFiSetHostname (cfgdevice_id e)] in
  exists scan attach,
    wifi_events s e = (scan ++ attach)%list
    /\ (scan = [] \/ scan = [WiFiScanNetworks])
    /\ (attach = [] \/ attach = [begin_]
        \/ attach = (reset_ ++ [begin_])%list).
Proof.
  cbv zeta.
  unfold wifi_events, tryWiFiConnectNonBlocking, tryWiFiConnectNonBlocking_V2.
  destruct (is_connected (st e)).
  { exists [], []. cbn [snd]. auto. }
  destruct (negb (ssidVisible s)
            && (sub32 (millis (t_cooldown e)) (lastScan s) <? 30000))%bool.
  { exists [], []. cbn [snd]. auto. }
  pose proof (wifi_scan_events s e) as Hscan.
  destruct (wifi_scan s e) as [[go s1] evs]. cbn [snd] in Hscan.
  destruct go.
  2:{ exists evs, []. cbn [snd]. rewrite app_nil_r. auto. }
  destruct (connecting s1
            && (sub32 (millis (t_inflight e)) (lastAttempt s1) <? 8000))%bool.
  { exists evs, []. cbn [snd]. rewrite app_nil_r. auto. }
  destruct (sub32 (millis (t_backoff e)) (lastAttempt s1) <? delayNext s1).
  { exists evs, []. cbn [snd]. rewrite app_nil_r. auto. }
  pose proof (wifi_attach_events s1 e) as Hatt.
  destruct (wifi_attach s1 e) as [s2 evs2]. cbn [snd] in *.
  exists evs, evs2. split; [reflexivity |]. split; [exact Hscan |].
  destruct Hatt as [-> | ->]; auto.
Qed.

(** ** Link guard: sequences of calls *)

Lemma sub32_millis_exact (t1 t2 : Z) :
  0 <= t2 - t1 < 2 ^ 32 -> sub32 (millis t2) (millis t1) = t2 - t1.
Proof.
  intros H. unfold sub32, millis, wrap32.
  rewrite <- Zminus_mod. now apply Z.mod_small.
Qed.

(** A call made while the SSID is known to be absent and less than 30 s
    after the scan makes no call on the radio and keeps the scan's
    verdict. *)
Lemma cooldown_step (s : WiFiGuard) (e : WiFiPoll) (T : Z) :
  ssidVisible s = false -> lastScan s = millis T ->
  T <= t_cooldown e < T + 30000 ->
  wifi_events s e = []
  /\ ssidVisible (wifi_next s e) = false
  /\ lastScan (wifi_next s e) = millis T.
Proof.
  intros Hv Hs Ht.
  unfold wifi_events, wifi_next, tryWiFiConnectNonBlocking,
    tryWiFiConnectNonBlocking_V2.
  destruct (is_connected (st e)); [cbn; auto |].
  rewrite Hv, Hs, sub32_millis_exact by lia. cbn [negb andb].
  destruct (Z.ltb_spec (t_cooldown e - T) 30000); [| lia].
  cbn [fst snd]. auto.
Qed.

(** X17. After a scan that does not find the configured SSID, the Wi-Fi
    guard makes no call on the radio, neither scan nor attach nor reset,
    during the 30000 ms that follow the scan, however often it is polled
    and whatever link status it reads. *)
Theorem absent_ssid_cooldown (s : WiFiGuard) (e0 : WiFiPoll)
    (es : list WiFiPoll) :
  existsb is_scan (wifi_events s e0) = true ->
  ssid_found (cfgwifi_ssid e0) (scanned e0) = false ->
  Forall (fun e => t_scanDone e0 <= t_cooldown e < t_scanDone e0 + 30000)
         es ->
  wifi_events s e0 = [WiFiScanNetworks]
  /\ wifi_run_events (wifi_next s e0) es = []
  /\ ssidVisible (wifi_run (wifi_next s e0) es) = false.
Proof.
  intros Hscan Hnot Hes.
  assert (H0 : wifi_events s e0 = [WiFiScanNetworks]
               /\ ssidVisible (wifi_next s e0) = false
               /\ lastScan (wifi_next s e0) = millis (t_scanDone e0)).
  { revert Hscan.
    unfold wifi_events, wifi_next, tryWiFiConnectNonBlocking,
      tryWiFiConnectNonBlocking_V2, wifi_scan.
    destruct (is_connected (st e0)); [discriminate |].
    destruct (negb (ssidVisible s)
              && (sub32 (millis (t_cooldown e0)) (lastScan s) <? 30000))%bool;
      [discriminate |].
    rewrite Hnot.
    destruct ((5 <=? tryCount s)
              && (30000 <? sub32 (millis (t_scanGate e0)) (lastScan s)))%bool.
    - cbn. auto.
    - cbn [fst snd ssidVisible negb].
      destruct (connecting s
                && (sub32 (millis (t_inflight e0)) (lastAttempt s) <? 8000))%bool;
        [discriminate |].
      destruct (sub32 (millis (t_backoff e0)) (lastAttempt s) <? delayNext s);
        [discriminate |].
      unfold wifi_attach. cbn [fst snd app].
      destruct (5000 <? sub32 (millis (t_resetGate e0)) (lastReset s));
        discriminate. }
  destruct H0 as (Hev & Hv & Hls). split; [exact Hev |].
  revert Hv Hls. generalize (wifi_next s e0) as s1.
  induction Hes as [|e es He Hes IH]; intros s1 Hv Hls; [split; auto |].
  destruct (cooldown_step s1 e _ Hv Hls He) as (Hev1 & Hv1 & Hls1).
  cbn [wifi_run_events wifi_run]. rewrite Hev1.
  destruct (IH _ Hv1 Hls1) as [IH1 IH2]. split; assumption.
Qed.

Lemma absent_ssid_cooldown_witness :
  let s := {| lastAttempt := 40000; lastReset := 40000; tryCount := 5;
              delayNext := 3210; connecting := true; ssidVisible := true;
              lastScan := 0 |} in
  let e0 := poll_at WL_NO_SSID_AVAIL 50000 in
  let es := map (poll_at WL_NO_SSID_AVAIL) [50010; 60000; 79999] in
  existsb is_scan (wifi_events s e0) = true
  /\ ssid_found (cfgwifi_ssid e0) (scanned e0) = false
  /\ wifi_run_events (wifi_next s e0) es = [].
Proof.
  intros s e0 es.
  assert (H1 : existsb is_scan (wifi_events s e0) = true) by reflexivity.
  assert (H2 : ssid_found (cfgwifi_ssid e0) (scanned e0) = false)
    by reflexivity.
  repeat (split; [assumption |]).
  apply (absent_ssid_cooldown s e0 es H1 H2).
  repeat constructor; cbn; lia.
Defined.

Lemma count_begins_app (a b : list Event) :
  count_begins (a ++ b) = (count_begins a + count_begins b)%nat.
Proof. unfold count_begins. now rewrite List.filter_app, length_app. Qed.

(** One call raises the attempt count by at most the number of attach calls
    it makes. *)
Lemma tryCount_step (s : WiFiGuard) (e : WiFiPoll) :
  0 <= tryCount s ->
  0 <= tryCount (wifi_next s e)
       <= tryCount s + Z.of_nat (count_begins (wifi_events s e)).
Proof.
  intros H0.
  unfold wifi_events, wifi_next, tryWiFiConnectNonBlocking,
    tryWiFiConnectNonBlocking_V2.
  destruct (is_connected (st e)); [cbn; lia |].
  destruct (negb (ssidVisible s)
            && (sub32 (millis (t_cooldown e)) (lastScan s) <? 30000))%bool;
    [cbn; lia |].
  assert (Hscan : 0 <= tryCount (snd (fst (wifi_scan s e))) <= tryCount s
                  /\ count_begins (snd (wifi_scan s e)) = 0%nat).
  { unfold wifi_scan.
    destruct ((5 <=? tryCount s)
              && (30000 <? sub32 (millis (t_scanGate e)) (lastScan s)))%bool;
      [| cbn; lia].
    cbn [ssidVisible].
    destruct (ssid_found (cfgwifi_ssid e) (scanned e)); cbn; lia. }
  destruct (wifi_scan s e) as [[go s1] evs]. cbn [fst snd] in Hscan.
  destruct Hscan as [Htc Hcb].
  destruct go; [| cbn [fst snd]; lia].
  destruct (connecting s1
            && (sub32 (millis (t_inflight e)) (lastAttempt s1) <? 8000))%bool;
    [cbn [fst snd]; lia |].
  destruct (sub32 (millis (t_backoff e)) (lastAttempt s1) <? delayNext s1);
    [cbn [fst snd]; lia |].
  pose proof (wifi_attach_events s1 e) as Hatt.
  pose proof (wifi_attach_delayNext s1 e) as [_ Hinc].
  destruct (wifi_attach s1 e) as [s2 evs2]. cbn [fst snd] in *.
  rewrite count_begins_app, Hcb, Hinc.
  assert (Hone : count_begins evs2 = 1%nat)
    by (destruct Hatt as [-> | ->]; reflexivity).
  rewrite Hone. unfold incr8.
  pose proof (Z.mod_pos_bound (tryCount s1 + 1) 256).
  pose proof (Z.mod_le (tryCount s1 + 1) 256). lia.
Qed.

Lemma tryCount_run (es : list WiFiPoll) (s : WiFiGuard) :
  0 <= tryCount s ->
  0 <= tryCount (wifi_run s es)
       <= tryCount s + Z.of_nat (count_begins (wifi_run_events s es)).
Proof.
  revert s; induction es as [|e es IH]; intros s H0; [cbn; lia |].
  cbn [wifi_run wifi_run_events]. rewrite count_begins_app.
  pose proof (tryCount_step s e H0) as Hs.
  pose proof (IH (wifi_next s e) (proj1 Hs)). lia.
Qed.

(** X18. Counting from boot, the Wi-Fi guard scans for the SSID only after
    it has made at least five attach calls. *)
Theorem scan_needs_five_attempts (es : list WiFiPoll) (e : WiFiPoll) :
  existsb is_scan (wifi_events (wifi_run WiFiGuard_boot es) e) = true ->
  (5 <= count_begins (wifi_run_events WiFiGuard_boot es))%nat.
Proof.
  intros Hscan.
  pose proof (tryCount_run es WiFiGuard_boot) as Hrun.
  cbn [WiFiGuard_boot tryCount] in Hrun. specialize (Hrun ltac:(lia)).
  set (s := wifi_run WiFiGuard_boot es) in *.
  assert (H5 : 5 <= tryCount s).
  { revert Hscan.
    unfold wifi_events, tryWiFiConnectNonBlocking,
      tryWiFiConnectNonBlocking_V2, wifi_scan.
    destruct (is_connected (st e)); [discriminate |].
    destruct (negb (ssidVisible s)
              && (sub32 (millis (t_cooldown e)) (lastScan s) <? 30000))%bool;
      [discriminate |].
    destruct (Z.leb_spec 5 (tryCount s)); [intros; assumption |].
    cbn [andb fst snd].
    destruct (connecting s
              && (sub32 (millis (t_inflight e)) (lastAttempt s) <? 8000))%bool;
      [discriminate |].
    destruct (sub32 (millis (t_backoff e)) (lastAttempt s) <? delayNext s);
      [discriminate |].
    unfold wifi_attach. cbn [fst snd app].
    destruct (5000 <? sub32 (millis (t_resetGate e)) (lastReset s));
      discriminate. }
  lia.
Qed.

Lemma scan_needs_five_attempts_witness :
  let es := map (poll_at WL_DISCONNECTED)
                [1000; 10000; 20000; 30000; 40000] in
  let e := poll_at WL_DISCONNECTED 50000 in
  existsb is_scan (wifi_events (wifi_run WiFiGuard_boot es) e) = true
  /\ (5 <= count_begins (wifi_run_events WiFiGuard_boot es))%nat.
Proof.
  intros es e.
  assert (H : existsb is_scan (wifi_events (wifi_run WiFiGuard_boot es) e)
              = true) by reflexivity.
  split; [exact H |].
  exact (scan_needs_five_attempts es e H).
Defined.

(** ** Session guard *)

Ltac mqtt_unfold :=
  unfold mqtt_result, mqtt_events, mqtt_next, tryMQTTConnectNonBlocking,
    mqtt_setup;
  cbn [connect_ok wifi_status client_connected initialized wasConnected
       mqtt_lastAttempt mqtt_tryCount nextDelay t_gate t_stamp
       mqtt_raw_random cfgmqtt_ip cfgmqtt_port mqtt_device_id cfgmqtt_user
       cfgmqtt_pass].

Ltac mqtt_simpl :=
  cbn [negb andb orb fst snd existsb is_connect app initialized wasConnected
       mqtt_lastAttempt mqtt_tryCount nextDelay] in *.

(** X19. The MQTT guard returns true exactly when it finds both the link
    and the session up. With the link down it does nothing at all: no call
    on the client, not even the one-time set-up, and no static changes. *)
Theorem mqtt_result_is_session_state (s : MQTTGuard) (e : MQTTPoll) :
  mqtt_result s e
  = (is_connected (wifi_status e) && client_connected e)%bool
  /\ (is_connected (wifi_status e) = false ->
      mqtt_events s e = [] /\ mqtt_next s e = s).
Proof.
  destruct s as [ini was la tc nd].
  destruct e as [ws ip port id user pass cc ok tg ts raw].
  mqtt_unfold.
  destruct (is_connected ws); cbn [negb andb]; [| now repeat split].
  split; [| discriminate].
  destruct ini, cc, was; mqtt_simpl; try reflexivity;
    destruct (sub32 (millis tg) la <? nd); mqtt_simpl; try reflexivity;
    destruct ok; reflexivity.
Qed.

(** One poll, seen from the trace: the set-up comes first and only while
    the guard is not initialised, and after a poll with the link up the
    guard is initialised. *)
Lemma setup_step (s : MQTTGuard) (e : MQTTPoll) (rest : list Event) :
  setup_in_order (initialized (mqtt_next s e)) rest = true ->
  setup_in_order (initialized s) (mqtt_events s e ++ rest) = true.
Proof.
  destruct s as [ini was la tc nd].
  destruct e as [ws ip port id user pass cc ok tg ts raw].
  mqtt_unfold.
  destruct (is_connected ws); cbn [negb]; [| intros H; exact H].
  destruct ini, cc, was; mqtt_simpl; try (intros H; exact H);
    try (destruct (sub32 (millis tg) la <? nd); mqtt_simpl;
         [| destruct ok; mqtt_simpl]);
    cbn [setup_in_order negb andb]; intros H; exact H.
Qed.

(** X20. From boot on, whatever the sequence of polls, the MQTT client is
    set up ([client.begin]) at most once, and no session attach call
    ([client.connect]) is made before it has been set up. *)
Theorem client_setup_once_and_first (es : list MQTTPoll) :
  setup_in_order false (mqtt_run_events MQTTGuard_boot es) = true.
Proof.
  change false with (initialized MQTTGuard_boot).
  generalize MQTTGuard_boot as s.
  induction es as [|e es IH]; intros s; [reflexivity |].
  cbn [mqtt_run_events]. apply setup_step, IH.
Qed.

(** One poll of the MQTT guard, seen from the backoff: either it makes the
    attach call, the gate being open, and stamps the attempt; or it makes
    none and keeps the stamp. The delay stays within 100 and 10000 ms. *)
Lemma mqtt_step (s : MQTTGuard) (e : MQTTPoll) :
  100 <= nextDelay s <= 10000 ->
  100 <= nextDelay (mqtt_next s e) <= 10000
  /\ ((existsb is_connect (mqtt_events s e) = true
       /\ nextDelay s <= sub32 (millis (t_gate e)) (mqtt_lastAttempt s)
       /\ mqtt_lastAttempt (mqtt_next s e) = millis (t_stamp e))
      \/ (existsb is_connect (mqtt_events s e) = false
          /\ mqtt_lastAttempt (mqtt_next s e) = mqtt_lastAttempt s
          /\ (nextDelay (mqtt_next s e) = nextDelay s
              \/ nextDelay (mqtt_next s e) = 100))).
Proof.
  intros Hd.
  assert (Hb : forall n raw, 100 <= mqttBackoff (incr8 n) raw <= 10000).
  { intros n raw. pose proof (incr8_range n) as Hn.
    destruct (Z_le_gt_dec (incr8 n) 5) as [Hle | Hgt].
    - pose proof (mqttBackoff_low (incr8 n) raw ltac:(lia)) as Hlow.
      assert (0 < 2 ^ incr8 n) by (apply Z.pow_pos_nonneg; lia).
      assert (2 ^ incr8 n <= 2 ^ 5) by (apply Z.pow_le_mono_r; lia).
      change (2 ^ 5) with 32 in *. lia.
    - rewrite mqttBackoff_high by lia. lia. }
  destruct s as [ini was la tc nd].
  destruct e as [ws ip port id user pass cc ok tg ts raw].
  cbn [nextDelay] in Hd. mqtt_unfold.
  assert (Hleaf : forall d' la' (c : bool),
            100 <= d' <= 10000 ->
            (c = true /\ nd <= sub32 (millis tg) la /\ la' = millis ts)
            \/ (c = false /\ la' = la /\ (d' = nd \/ d' = 100)) ->
            100 <= d' <= 10000
            /\ ((c = true /\ nd <= sub32 (millis tg) la /\ la' = millis ts)
                \/ (c = false /\ la' = la /\ (d' = nd \/ d' = 100))))
    by (intros; now split).
  destruct (is_connected ws); cbn [negb];
    [| mqtt_simpl; apply Hleaf; [lia | right; auto]].
  destruct ini, cc, was; mqtt_simpl;
    try (apply Hleaf; [lia | right; auto]; fail);
    (destruct (Z.ltb_spec (sub32 (millis tg) la) nd); mqtt_simpl;
     [apply Hleaf; [lia | right; auto] |];
     destruct ok; mqtt_simpl;
     (apply Hleaf; [first [lia | apply Hb] | left; auto])).
Qed.

Lemma mqtt_run_quiet (es : list MQTTPoll) (s : MQTTGuard) :
  100 <= nextDelay s <= 10000 ->
  mqtt_run_connects s es = false ->
  mqtt_lastAttempt (mqtt_run s es) = mqtt_lastAttempt s
  /\ 100 <= nextDelay (mqtt_run s es) <= 10000.
Proof.
  revert s; induction es as [|e es IH]; intros s Hd Hq; [now split |].
  cbn [mqtt_run_connects] in Hq. apply orb_false_iff in Hq.
  destruct Hq as [Hhead Hrest].
  destruct (mqtt_step s e Hd) as (Hd1 & [(Hc & _) | (_ & Hla & _)]);
    [congruence |].
  destruct (IH (mqtt_next s e) Hd1 Hrest) as [IHla IHd].
  cbn [mqtt_run]. split; [congruence | exact IHd].
Qed.

(** X21. Take two session attach calls of the MQTT guard with none between
    them, whatever polls were made in between. The second is made no sooner
    than the current backoff delay after the stamp of the first, and this
    delay lies between 100 and 10000 ms. *)
Theorem connect_spacing (s : MQTTGuard) (e1 : MQTTPoll) (es : list MQTTPoll)
    (e2 : MQTTPoll) :
  100 <= nextDelay s <= 10000 ->
  existsb is_connect (mqtt_events s e1) = true ->
  mqtt_run_connects (mqtt_next s e1) es = false ->
  existsb is_connect (mqtt_events (mqtt_run (mqtt_next s e1) es) e2) = true ->
  t_stamp e1 <= t_gate e2 ->
  let s2 := mqtt_run (mqtt_next s e1) es in
  nextDelay s2 <= t_gate e2 - t_stamp e1
  /\ 100 <= nextDelay s2 <= 10000.
Proof.
  intros Hd H1 Hq H2 Hclock s2.
  destruct (mqtt_step s e1 Hd) as (Hd1 & [(_ & _ & Hstamp) | (Hno & _)]);
    [| congruence].
  destruct (mqtt_run_quiet es _ Hd1 Hq) as [Hla Hd2]. fold s2 in Hla, Hd2.
  destruct (mqtt_step s2 e2 Hd2) as (_ & [(_ & Hgate & _) | (Hno & _)]);
    [| subst s2; congruence].
  rewrite Hla, Hstamp in Hgate.
  pose proof (sub32_millis_le (t_stamp e1) (t_gate e2) Hclock).
  split; [lia | exact Hd2].
Qed.

Lemma connect_spacing_witness :
  let e1 := mqtt_poll_at WL_CONNECTED false false 1000 in
  let es := [mqtt_poll_at WL_CONNECTED false false 1100;
             mqtt_poll_at WL_DISCONNECTED false false 1150] in
  let e2 := mqtt_poll_at WL_CONNECTED false false 1300 in
  100 <= nextDelay MQTTGuard_boot <= 10000
  /\ existsb is_connect (mqtt_events MQTTGuard_boot e1) = true
  /\ mqtt_run_connects (mqtt_next MQTTGuard_boot e1) es = false
  /\ existsb is_connect
       (mqtt_events (mqtt_run (mqtt_next MQTTGuard_boot e1) es) e2) = true
  /\ t_stamp e1 <= t_gate e2
  /\ nextDelay (mqtt_run (mqtt_next MQTTGuard_boot e1) es)
     <= t_gate e2 - t_stamp e1.
Proof.
  intros e1 es e2.
  assert (Hd : 100 <= nextDelay MQTTGuard_boot <= 10000) by (cbn; lia).
  assert (H1 : existsb is_connect (mqtt_events MQTTGuard_boot e1) = true)
    by reflexivity.
  assert (Hq : mqtt_run_connects (mqtt_next MQTTGuard_boot e1) es = false)
    by reflexivity.
  assert (H2 : existsb is_connect
                 (mqtt_events (mqtt_run (mqtt_next MQTTGuard_boot e1) es) e2)
               = true) by reflexivity.
  assert (Hc : t_stamp e1 <= t_gate e2) by (cbn; lia).
  repeat (split; [assumption |]).
  apply (connect_spacing MQTTGuard_boot e1 es e2 Hd H1 Hq H2 Hc).
Defined.

(** ** Retry delays *)

Lemma wifi_delay_step (s : WiFiGuard) (e : WiFiPoll) :
  100 <= delayNext s <= 10000 -> 100 <= delayNext (wifi_next s e) <= 10000.
Proof.
  intros Hd.
  destruct (wifi_step s e)
    as [(_ & _ & _ & _ & _ & Hdelay & Hcount) | (_ & _ & _ & Hdn)].
  - rewrite Hdelay. set (n := tryCount (wifi_next s e)) in *.
    destruct (Z_le_gt_dec n 5) as [Hle | Hgt].
    + pose proof (wifiBackoff_low n (raw_random e) ltac:(lia)) as Hlow.
      assert (0 < 2 ^ n) by (apply Z.pow_pos_nonneg; lia).
      assert (2 ^ n <= 2 ^ 5) by (apply Z.pow_le_mono_r; lia).
      change (2 ^ 5) with 32 in *. lia.
    + rewrite wifiBackoff_high by lia. lia.
  - rewrite Hdn. destruct (is_connected (st e)); lia.
Qed.

(** X22. From boot on, whatever the sequence of polls, the retry delay of
    the Wi-Fi guard and that of the MQTT guard stay between 100 and
    10000 ms. *)
Theorem retry_delay_bounds (ws : list WiFiPoll) (ms : list MQTTPoll) :
  100 <= delayNext (wifi_run WiFiGuard_boot ws) <= 10000
  /\ 100 <= nextDelay (mqtt_run MQTTGuard_boot ms) <= 10000.
Proof.
  split.
  - assert (H : 100 <= delayNext WiFiGuard_boot <= 10000) by (cbn; lia).
    revert H. generalize WiFiGuard_boot as s.
    induction ws as [|e ws IH]; intros s H; [exact H |].
    cbn [wifi_run]. apply IH. now apply wifi_delay_step.
  - assert (H : 100 <= nextDelay MQTTGuard_boot <= 10000) by (cbn; lia).
    revert H. generalize MQTTGuard_boot as s.
    induction ms as [|e ms IH]; intros s H; [exact H |].
    cbn [mqtt_run]. apply IH. now apply (mqtt_step s e H).
Qed.

(** ** The pump *)

(** What the loop condition computes before the cast. *)
Lemma pump_remaining (t0 ms t : Z) :
  sub32 (wrap32 (millis t0 + ms)) (millis t) = (t0 + ms - t) mod 2 ^ 32.
Proof.
  unfold sub32, millis, wrap32.
  rewrite Zplus_mod_idemp_l, <- Zminus_mod. reflexivity.
Qed.

Lemma pump_goes_on (t0 ms t : Z) :
  ms < 2 ^ 31 -> t0 <= t < t0 + ms ->
  (0 <? to_long (sub32 (wrap32 (millis t0 + ms)) (millis t))) = true.
Proof.
  intros Hms Ht. rewrite pump_remaining, Z.mod_small by lia.
  unfold to_long. destruct (Z.ltb_spec (t0 + ms - t) (2 ^ 31)); [| lia].
  apply Z.ltb_lt. lia.
Qed.

Lemma pump_stops (t0 ms t : Z) :
  t0 + ms <= t <= t0 + ms + 2 ^ 31 ->
  (0 <? to_long (sub32 (wrap32 (millis t0 + ms)) (millis t))) = false.
Proof.
  intros Ht. rewrite pump_remaining. apply Z.ltb_ge. unfold to_long.
  destruct (Z.eq_dec (t0 + ms - t) 0) as [-> | Hne].
  { rewrite Zmod_0_l. destruct (Z.ltb_spec 0 (2 ^ 31)); lia. }
  replace ((t0 + ms - t) mod 2 ^ 32) with (t0 + ms - t + 2 ^ 32).
  - destruct (Z.ltb_spec (t0 + ms - t + 2 ^ 32) (2 ^ 31)); lia.
  - apply Z.mod_unique with (q := -1); lia.
Qed.

(** X23. With link and session up and a duration below 2^31 ms, the pump
    calls [client.loop()] once for every clock reading taken before the
    deadline and returns at the first reading at or past it. *)
Theorem pump_runs_until_deadline (status : wl_status_t) (ms t0 : Z)
    (before : list Z) (t : Z) (after : list Z) :
  is_connected status = true ->
  0 <= ms < 2 ^ 31 ->
  Forall (fun r => t0 <= r < t0 + ms) before ->
  t0 + ms <= t <= t0 + ms + 2 ^ 31 ->
  MQTTrefreshWithDelay status true ms t0 (before ++ t :: after)
  = (length before, true).
Proof.
  intros Hlink Hms Hbefore Ht. unfold MQTTrefreshWithDelay.
  rewrite Hlink. cbn [negb].
  induction Hbefore as [|r before Hr Hbefore IH].
  - cbn [app pump_loop length]. now rewrite pump_stops.
  - cbn [app pump_loop length]. rewrite pump_goes_on by lia.
    now rewrite IH.
Qed.

Lemma pump_runs_until_deadline_witness :
  is_connected WL_CONNECTED = true
  /\ 0 <= 20 < 2 ^ 31
  /\ MQTTrefreshWithDelay WL_CONNECTED true 20 4294967290
       (clock 4294967290 6 3 ++ 4294967314 :: [4294967320]) = (3%nat, true).
Proof.
  split; [reflexivity |]. split; [lia |].
  apply (pump_runs_until_deadline WL_CONNECTED 20 4294967290
           (clock 4294967290 6 3) 4294967314 [4294967320]);
    [reflexivity | lia | repeat constructor; cbn; lia | lia].
Defined.

(** X24. The pump calls [client.loop()] not once when the link or the
    session is down. With both up and a duration [ms] of 2^31 ms or more
    (below 2^32), what it does hangs on the first clock reading of the loop:
    if that reading comes at most [ms - 2^31] ms after the deadline was
    fixed, the signed comparison sees the deadline as already passed and the
    pump returns without a call; if it comes later than that, and before
    the [ms] are over, the loop is entered. *)
Theorem pump_does_nothing (status : wl_status_t) (connected : bool)
    (ms t0 t : Z) (ticks : list Z) :
  (is_connected status = false \/ connected = false ->
   MQTTrefreshWithDelay status connected ms t0 ticks = (0%nat, true))
  /\ (2 ^ 31 <= ms < 2 ^ 32 -> t0 <= t <= t0 + ms - 2 ^ 31 ->
      MQTTrefreshWithDelay WL_CONNECTED true ms t0 (t :: ticks)
      = (0%nat, true))
  /\ (2 ^ 31 <= ms < 2 ^ 32 -> t0 + ms - 2 ^ 31 < t < t0 + ms ->
      (1 <= fst (MQTTrefreshWithDelay WL_CONNECTED true ms t0 (t :: ticks)))%nat).
Proof.
  split; [| split].
  - unfold MQTTrefreshWithDelay. intros [-> | ->]; [reflexivity |].
    now destruct (is_connected status).
  - intros Hms Ht. unfold MQTTrefreshWithDelay.
    cbn [is_connected negb pump_loop].
    rewrite pump_remaining, Z.mod_small by lia.
    unfold to_long. destruct (Z.ltb_spec (t0 + ms - t) (2 ^ 31)); [lia |].
    destruct (Z.ltb_spec 0 (t0 + ms - t - 2 ^ 32)); [lia | reflexivity].
  - intros Hms Ht. unfold MQTTrefreshWithDelay.
    cbn [is_connected negb pump_loop].
    rewrite pump_remaining, Z.mod_small by lia.
    unfold to_long. destruct (Z.ltb_spec (t0 + ms - t) (2 ^ 31)); [| lia].
    destruct (Z.ltb_spec 0 (t0 + ms - t)); [| lia].
    destruct (pump_loop _ ticks) as [n done]. cbn [fst]. lia.
Qed.

(** A duration of exactly 2^31 ms with a first reading 1 ms after the
    deadline was fixed: the loop runs. *)
Example pump_enters_loop :
  MQTTrefreshWithDelay WL_CONNECTED true (2 ^ 31) 1000 [1001; 1002; 1003]
  = (3%nat, false).
Proof. reflexivity. Qed.

End NetExtra.

(** * Properties of the configuration parameters *)

Module ConfigExtra.
Import WString Config BridgeProps BridgeExtra.

(** ** Trimming and lowering *)

Lemma isspace_tolower (c : ascii) : isspace (tolower c) = isspace c.
Proof.
  unfold tolower.
  destruct ((65 <=? code c) && (code c <=? 90))%Z eqn:E; [| reflexivity].
  apply andb_true_iff in E. destruct E as [E1 E2].
  apply Z.leb_le in E1, E2.
  assert (Hc : code (ascii_of_N (Z.to_N (code c + 32))) = (code c + 32)%Z).
  { unfold code. rewrite N_ascii_embedding; [lia |].
    pose proof (code_range c). unfold code in *. lia. }
  unfold isspace. rewrite Hc.
  destruct (Z.eqb_spec (code c + 32) 32), (Z.eqb_spec (code c) 32),
    (Z.leb_spec 9 (code c + 32)), (Z.leb_spec (code c + 32) 13),
    (Z.leb_spec 9 (code c)), (Z.leb_spec (code c) 13);
    try lia; reflexivity.
Qed.

Lemma toLowerCase_trimLeft (s : string) :
  toLowerCase (trimLeft s) = trimLeft (toLowerCase s).
Proof.
  induction s as [|c r IH]; [reflexivity |].
  cbn [trimLeft toLowerCase]. rewrite isspace_tolower.
  now destruct (isspace c).
Qed.

Lemma toLowerCase_trimRight (s : string) :
  toLowerCase (trimRight s) = trimRight (toLowerCase s).
Proof.
  induction s as [|c r IH]; [reflexivity |].
  cbn [trimRight toLowerCase]. rewrite <- IH, isspace_tolower.
  destruct (trimRight r); cbn [toLowerCase]; [| reflexivity].
  now destruct (isspace c).
Qed.

Lemma toLowerCase_trim (s : string) :
  toLowerCase (trim s) = trim (toLowerCase s).
Proof.
  unfold trim. now rewrite toLowerCase_trimRight, toLowerCase_trimLeft.
Qed.

Lemma trimRight_cons (c : ascii) (r : string) :
  trimRight (String c r)
  = match trimRight r with
    | EmptyString => if isspace c then EmptyString else String c EmptyString
    | r' => String c r'
    end.
Proof. reflexivity. Qed.

Lemma trimRight_idem (s : string) : trimRight (trimRight s) = trimRight s.
Proof.
  induction s as [|c r IH]; [reflexivity |].
  rewrite (trimRight_cons c r). destruct (trimRight r) as [|d r'].
  - destruct (isspace c) eqn:Ec; [reflexivity |].
    rewrite trimRight_cons. cbn [trimRight]. now rewrite Ec.
  - rewrite trimRight_cons, IH. reflexivity.
Qed.

(** A string that does not start with white space keeps its first
    character through [trimRight]. *)
Lemma trimLeft_trimRight (c : ascii) (r : string) :
  isspace c = false ->
  trimLeft (trimRight (String c r)) = trimRight (String c r).
Proof.
  intros Hc. cbn [trimRight].
  destruct (trimRight r); [rewrite Hc |]; cbn [trimLeft]; now rewrite Hc.
Qed.

Lemma trimLeft_head (s : string) :
  trimLeft s = "" \/ exists c r, trimLeft s = String c r /\ isspace c = false.
Proof.
  induction s as [|c r IH]; [now left |].
  cbn [trimLeft]. destruct (isspace c) eqn:Ec; [exact IH |].
  right. now exists c, r.
Qed.

Lemma trim_idem (s : string) : trim (trim s) = trim s.
Proof.
  unfold trim. destruct (trimLeft_head s) as [-> | (c & r & -> & Hc)];
    [reflexivity |].
  now rewrite trimLeft_trimRight, trimRight_idem.
Qed.

(** ** The NVS key of a parameter *)

Lemma substring_from_app_tail (pre tail : string) :
  substring_from (String.length pre) (pre ++ tail) = tail.
Proof. induction pre as [|c r IH]; [now destruct tail | exact IH]. Qed.

(** X25. The NVS key of a parameter is the key itself up to 15 characters
    and its last 15 characters beyond: it never exceeds 15 characters, and
    longer keys that end in the same 15 characters share one NVS entry. *)
Theorem nvsKey_keeps_tail (k pre tail : string) :
  String.length (nvsKey k) <= 15
  /\ (String.length k <= 15 -> nvsKey k = k)
  /\ (String.length tail = 15 -> nvsKey (pre ++ tail) = tail).
Proof.
  unfold nvsKey. repeat split.
  - destruct (String.length k <=? 15)%nat eqn:E.
    + now apply Nat.leb_le in E.
    + apply Nat.leb_gt in E. rewrite length_substring_from. lia.
  - intros H. apply Nat.leb_le in H. now rewrite H.
  - intros Ht. rewrite length_append, Ht.
    destruct (String.length pre + 15 <=? 15)%nat eqn:E.
    + apply Nat.leb_le in E.
      assert (Hp : pre = "") by (destruct pre; [reflexivity | cbn in E; lia]).
      now subst pre.
    + replace (String.length pre + 15 - 15) with (String.length pre) by lia.
      apply substring_from_app_tail.
Qed.

Section ParamProps.

Context {Double : Type}.
Variable toFloat : string -> Double.
Variable dlt : Double -> Double -> bool.
Variable sscanf_ip : string -> option (Z * Z * Z * Z).

Abbreviation Param := (@HestiaParam Double).

(** ** Writing and reading a parameter *)

Lemma write_key (v : string) (p : Param) : key (snd (write v p)) = key p.
Proof.
  unfold write. destruct (String.eqb (type p) "bool"); [| reflexivity].
  destruct (_ || _ || _)%bool; [reflexivity |].
  now destruct (_ || _ || _)%bool.
Qed.

Lemma write_succeeds (v : string) (p : Param) : fst (write v p) = true.
Proof.
  unfold write. destruct (String.eqb (type p) "bool"); [| reflexivity].
  destruct (_ || _ || _)%bool; [reflexivity |].
  now destruct (_ || _ || _)%bool.
Qed.

(** X26. [write] always succeeds, and [readBool] then agrees with it on
    what counts as true: after [write(x)], whatever the type of the
    parameter, [readBool] returns true exactly when [x], trimmed and
    lowered, is ["true"], ["on"] or ["1"]. In particular a boolean written
    with [write(bool)] reads back as written. *)
Theorem readBool_after_param_write (x : string) (v : bool) (p : Param) :
  fst (write x p) = true
  /\ (readBool (snd (write x p)) = true <->
      toLowerCase (trim x) = "true" \/ toLowerCase (trim x) = "on"
      \/ toLowerCase (trim x) = "1")
  /\ readBool (snd (write_bool v p)) = v.
Proof.
  assert (Hraw : forall y,
            readBool (set_value p (trim y)) = true <->
            toLowerCase (trim y) = "true" \/ toLowerCase (trim y) = "on"
            \/ toLowerCase (trim y) = "1").
  { intros y. unfold readBool. cbn [set_value _value].
    rewrite <- toLowerCase_trim, trim_idem.
    destruct (String.eqb_spec (toLowerCase (trim y)) "true");
      destruct (String.eqb_spec (toLowerCase (trim y)) "1");
      destruct (String.eqb_spec (toLowerCase (trim y)) "on");
      cbn [orb]; try tauto;
      destruct (_ || _ || _)%bool; intuition discriminate. }
  assert (Hall : forall y,
            fst (write y p) = true
            /\ (readBool (snd (write y p)) = true <->
                toLowerCase (trim y) = "true" \/ toLowerCase (trim y) = "on"
                \/ toLowerCase (trim y) = "1")).
  { intros y. unfold write.
    destruct (String.eqb (type p) "bool"); [| split; [reflexivity | apply Hraw]].
    destruct (String.eqb_spec (toLowerCase (trim y)) "true") as [E1 | E1];
      [cbn [orb fst snd]; split; [reflexivity |]; split; [tauto | reflexivity] |].
    destruct (String.eqb_spec (toLowerCase (trim y)) "on") as [E2 | E2];
      [cbn [orb fst snd]; split; [reflexivity |]; split; [tauto | reflexivity] |].
    destruct (String.eqb_spec (toLowerCase (trim y)) "1") as [E3 | E3];
      [cbn [orb fst snd]; split; [reflexivity |]; split; [tauto | reflexivity] |].
    cbn [orb].
    destruct (_ || _ || _)%bool; cbn [fst snd].
    - split; [reflexivity |]. split; [discriminate | tauto].
    - split; [reflexivity | apply Hraw]. }
  split; [apply Hall |]. split; [apply Hall |].
  destruct (Hall (if v then "true" else "false")) as [_ Hv].
  unfold write_bool. destruct v.
  - apply Hv. now left.
  - apply not_true_is_false. intros E.
    apply Hv in E. destruct E as [E | [E | E]]; discriminate E.
Qed.

(** ** Parameters and NVS *)

(** X27. A provisioning parameter saved to NVS is loaded back with the
    saved value, by any parameter of the same key; loading changes nothing
    in NVS when the key is present, stores the current value when the key
    is absent and lazy initialisation is asked for, and does nothing at all
    for a parameter that is not a provisioning one. *)
Theorem param_nvs_round_trip (lazyInit : bool) (p q : Param)
    (nvs : gmap string string) :
  (provisioning q = true -> key q = key p ->
   loadFromNVS lazyInit q (saveToNVS p nvs)
   = (set_value q (_value p), saveToNVS p nvs))
  /\ (provisioning q = true -> nvs !! nvsKey (key q) = None ->
      loadFromNVS true q nvs = (q, <[nvsKey (key q) := _value q]> nvs)
      /\ loadFromNVS false q nvs = (q, nvs))
  /\ (provisioning q = false -> loadFromNVS lazyInit q nvs = (q, nvs)).
Proof.
  unfold loadFromNVS, saveToNVS. repeat split.
  - intros Hp Hk. rewrite Hp, Hk. cbn [negb]. now rewrite lookup_insert_eq.
  - rewrite H. cbn [negb]. now rewrite H0.
  - rewrite H. cbn [negb]. now rewrite H0.
  - intros ->. reflexivity.
Qed.

(** ** The parameter table *)

Lemma getParam_obj (params : list Param) (k : string) :
  getParam params k = match getParamObj params k with
                      | Some p => read p
                      | None => ""
                      end.
Proof.
  induction params as [|p rest IH]; [reflexivity |].
  cbn [getParam getParamObj]. now destruct (String.eqb (key p) k).
Qed.

(** X28. [getParam] and [setParam] act on the first parameter with the
    given key. For an unknown key [getParam] returns the empty text and
    [setParam] returns false and changes nothing; for a known key
    [setParam] succeeds and [getParam] then returns what [write] made of
    the value; the value read under any other key is unchanged. *)
Theorem setParam_then_getParam (params : list Param) (k v k' : string) :
  (getParamObj params k = None ->
   getParam params k = "" /\ setParam params k v = (false, params))
  /\ (forall p, getParamObj params k = Some p ->
      fst (setParam params k v) = true
      /\ getParam (snd (setParam params k v)) k = read (snd (write v p)))
  /\ (k' <> k ->
      getParam (snd (setParam params k v)) k' = getParam params k').
Proof.
  induction params as [|p rest IH].
  - repeat split; discriminate.
  - destruct IH as (IH1 & IH2 & IH3).
    cbn [getParamObj getParam setParam].
    destruct (String.eqb_spec (key p) k) as [Hk | Hk].
    + split; [discriminate |]. split.
      * intros p0 Hp0. injection Hp0 as <-. split.
        -- apply write_succeeds.
        -- cbn [snd getParam].
           rewrite write_key, Hk, String.eqb_refl. reflexivity.
      * intros Hne. cbn [snd getParam]. rewrite write_key, Hk.
        apply String.eqb_neq in Hne. rewrite String.eqb_sym in Hne.
        now rewrite Hne.
    + destruct (setParam rest k v) as [r rest'] eqn:Eset.
      cbn [fst snd] in *. split; [| split].
      * intros Hnone. destruct (IH1 Hnone) as [Hget Heq].
        injection Heq as -> ->. now split.
      * intros p0 Hp0. destruct (IH2 p0 Hp0) as [Hr Hget].
        split; [exact Hr |]. cbn [getParam].
        apply String.eqb_neq in Hk. now rewrite Hk.
      * intros Hne. cbn [getParam].
        destruct (String.eqb (key p) k'); [reflexivity | now apply IH3].
Qed.

(** ** Validation *)


(** X30. [validateR2] returns true exactly when the value of every critical
    parameter passes [validate]; parameters that are not critical are not
    looked at. *)
Theorem validateR2_iff (params : list Param) :
  validateR2 toFloat dlt sscanf_ip params = true <->
  Forall (fun p => critical p = true ->
                   validate toFloat dlt sscanf_ip p (_value p) = true)
         params.
Proof.
  induction params as [|p rest IH]; [split; [constructor | reflexivity] |].
  cbn [validateR2]. unfold validateValue.
  destruct (critical p) eqn:Ec; cbn [andb].
  - destruct (validate toFloat dlt sscanf_ip p (_value p)) eqn:Ev;
      cbn [negb].
    + rewrite IH. split.
      * intros Hf. constructor; [now intros _ | exact Hf].
      * intros Hf. now inversion Hf.
    + split; [discriminate |].
      intros Hf. inversion Hf as [|? ? Hp _]. specialize (Hp Ec).
      congruence.
  - rewrite IH. split.
    + intros Hf. constructor; [intros Hc; congruence | exact Hf].
    + intros Hf. now inversion Hf.
Qed.

End ParamProps.


Lemma param_nvs_round_trip_witness :
  provisioning mqtt_ip_param = true
  /\ fst (loadFromNVS true mqtt_ip_param
            (saveToNVS (set_value mqtt_ip_param "broker.local") ∅))
     = set_value mqtt_ip_param "broker.local".
Proof.
  split; [reflexivity |].
  destruct (param_nvs_round_trip true (set_value mqtt_ip_param "broker.local")
              mqtt_ip_param ∅) as [H _].
  rewrite H; reflexivity.
Defined.

End ConfigExtra.
